(** * OBSIDIAN security core (Aegis-9): a shallow embedding

    The protection pipeline of [src/core]: key derivation and key validation
    ([ecc_hardware_manager.py]), canary tokens ([canary_tokens.py]), the
    keyed-hash counter-mode cipher with its tag ([encryption_engine.py]),
    fragment binding and the merkle-style commitment ([fragmenter.py]) and
    the orchestrating [SecurityCore] ([key_derivation.py]).

    Python values are modelled as follows.
    - [bytes] is a list of [Byte.byte]; [int] is [Z]; slices follow Python's
      rules for negative and out-of-range indices ([py_slice]).
    - [str] is a Rocq [string] holding the UTF-8 text; [encode('utf-8')]
      reads its bytes.
    - [hashlib.sha256], [hashlib.sha512] and [hmac.new(..., sha512)] are the
      FIPS 180-4 / RFC 2104 functions, written out below so that every
      definition evaluates.
    - [secrets.token_bytes], [datetime.now] and the order in which the
      methods are entered live in a [world] threaded through a state and
      error monad.
    - the metadata [dict] is a [gmap] from [string]; the record to protect,
      whose serializer is not among the sources, is the list of its entries
      ([StructuredRecord]). *)

From Stdlib Require Import ZArith NArith Lia.
From Stdlib Require Import Strings.Byte Strings.Ascii.
From Stdlib Require Strings.String.
From stdpp Require Import base option list gmap strings.

Local Open Scope nat_scope.

(** ** Bytes *)

Abbreviation byte := Init.Byte.byte.
Abbreviation bytes := (list Init.Byte.byte).

#[global] Instance byte_eq_decision : EqDecision byte := Byte.byte_eq_dec.
#[global] Instance byte_inhabited : Inhabited byte := populate Byte.x00.

(** The byte with value [n mod 256]. *)
Definition byte_of_N (n : N) : byte :=
  match Byte.of_N (n mod 256) with
  | Some b => b
  | None => Byte.x00
  end.

(** [a ^ b] on two values of a [bytes] object. *)
Definition byte_xor (a b : byte) : byte :=
  byte_of_N (N.lxor (Byte.to_N a) (Byte.to_N b)).

(** [x.to_bytes(n, 'big')], for [x] below [256 ^ n] (larger values wrap). *)
Fixpoint to_bytes_big (n : nat) (x : N) : bytes :=
  match n with
  | O => []
  | S k => to_bytes_big k (x / 256) ++ [byte_of_N x]
  end.

(** [int.from_bytes(bs, 'big')], continuing from [acc]. *)
Fixpoint from_bytes_big (acc : N) (bs : bytes) : N :=
  match bs with
  | [] => acc
  | b :: rest => from_bytes_big (acc * 256 + Byte.to_N b) rest
  end.

(** Consecutive pieces of [n] elements; the last one may be shorter. *)
Fixpoint pieces_loop {A} (fuel n : nat) (l : list A) : list (list A) :=
  match fuel, l with
  | O, _ | _, [] => []
  | S fuel', _ => take n l :: pieces_loop fuel' n (drop n l)
  end.

Definition pieces {A} (n : nat) (l : list A) : list (list A) :=
  pieces_loop (length l) n l.

(** ** SHA-2 (FIPS 180-4) *)

Module SHA2.

Definition state : Type := N * N * N * N * N * N * N * N.

Record variant := Variant {
  word_bytes : nat;
  K : list N;
  IV : state;
  Sigma0_by : N * N * N;
  Sigma1_by : N * N * N;
  sigma0_by : N * N * N;
  sigma1_by : N * N * N
}.

Section Algorithm.
Variable v : variant.

Definition wbits : N := N.of_nat (8 * word_bytes v).
Definition wrap (x : N) : N := (x mod 2 ^ wbits)%N.
Definition add (x y : N) : N := wrap (x + y).
Definition rotr (n x : N) : N :=
  N.lor (N.shiftr x n) (wrap (N.shiftl x (wbits - n))).
Definition shr (n x : N) : N := N.shiftr x n.
Definition neg (x : N) : N := N.lxor x (N.ones wbits).

Definition Ch (x y z : N) : N := N.lxor (N.land x y) (N.land (neg x) z).
Definition Maj (x y z : N) : N :=
  N.lxor (N.lxor (N.land x y) (N.land x z)) (N.land y z).
Definition Sigma (by3 : N * N * N) (x : N) : N :=
  let '(a, b, c) := by3 in N.lxor (N.lxor (rotr a x) (rotr b x)) (rotr c x).
Definition sigma (by3 : N * N * N) (x : N) : N :=
  let '(a, b, c) := by3 in N.lxor (N.lxor (rotr a x) (rotr b x)) (shr c x).

Definition block_bytes : nat := 16 * word_bytes v.

(** 0x80, zeros up to the last two words of a block, the bit length. *)
Definition pad (msg : bytes) : bytes :=
  let l := length msg in
  let k := (block_bytes - (l + 1 + 2 * word_bytes v) mod block_bytes)
             mod block_bytes in
  msg ++ Byte.x80 :: repeat Byte.x00 k
      ++ to_bytes_big (2 * word_bytes v) (N.of_nat (8 * l)).

Fixpoint extend (t : nat) (W : list N) (todo : nat) : list N :=
  match todo with
  | O => W
  | S todo' =>
      let w := add (add (add (sigma (sigma1_by v) (nth (t - 2) W 0%N))
                             (nth (t - 7) W 0%N))
                        (sigma (sigma0_by v) (nth (t - 15) W 0%N)))
                   (nth (t - 16) W 0%N) in
      extend (S t) (W ++ [w]) todo'
  end.

Definition schedule (block : bytes) : list N :=
  extend 16 (map (from_bytes_big 0) (pieces (word_bytes v) block))
         (length (K v) - 16).

Definition round (s : state) (kw : N * N) : state :=
  let '(a, b, c, d, e, f, g, h) := s in
  let '(k, w) := kw in
  let T1 := add (add (add (add h (Sigma (Sigma1_by v) e)) (Ch e f g)) k) w in
  let T2 := add (Sigma (Sigma0_by v) a) (Maj a b c) in
  (add T1 T2, a, b, c, add d T1, e, f, g).

Definition compress (H : state) (block : bytes) : state :=
  let '(a, b, c, d, e, f, g, h) :=
    fold_left round (combine (K v) (schedule block)) H in
  let '(h0, h1, h2, h3, h4, h5, h6, h7) := H in
  (add h0 a, add h1 b, add h2 c, add h3 d,
   add h4 e, add h5 f, add h6 g, add h7 h).

Definition digest (msg : bytes) : bytes :=
  let '(h0, h1, h2, h3, h4, h5, h6, h7) :=
    fold_left compress (pieces block_bytes (pad msg)) (IV v) in
  concat (map (to_bytes_big (word_bytes v)) [h0; h1; h2; h3; h4; h5; h6; h7]).
End Algorithm.

(** The constants of FIPS 180-4, section 4.2 and 5.3, from their definition:
    the leading fractional bits of the square roots (initial hash values)
    and cube roots (round constants) of the first primes. *)

(** The first [count] primes from [candidate] on, given the smaller ones. *)
Fixpoint primes_loop (fuel : nat) (candidate : N) (smaller : list N)
    (count : nat) : list N :=
  match fuel, count with
  | O, _ | _, O => smaller
  | S fuel', S count' =>
      if forallb (fun p => negb (candidate mod p =? 0)%N) smaller
      then primes_loop fuel' (candidate + 1) (smaller ++ [candidate]) count'
      else primes_loop fuel' (candidate + 1) smaller count
  end.

Definition first_primes (count : nat) : list N :=
  primes_loop 512 2 [] count.

(** The largest [y] with [y ^ r <= n] among [x], ..., [x + 2 ^ bit - 1], found
    bit by bit from the top. *)
Fixpoint root_loop (r n : N) (bit : nat) (x : N) : N :=
  match bit with
  | O => x
  | S bit' =>
      let x' := (x + 2 ^ N.of_nat bit')%N in
      root_loop r n bit' (if (x' ^ r <=? n)%N then x' else x)
  end.

(** The first [bits] fractional bits of the [r]-th root of [p]. *)
Definition root_fraction (r bits p : N) : N :=
  (root_loop r (p * 2 ^ (r * bits)) (N.to_nat bits + 16) 0 mod 2 ^ bits)%N.

Definition state_of_list (l : list N) : state :=
  match l with
  | [h0; h1; h2; h3; h4; h5; h6; h7] => (h0, h1, h2, h3, h4, h5, h6, h7)
  | _ => (0, 0, 0, 0, 0, 0, 0, 0)%N
  end.

Definition sha256_variant : variant :=
  Eval vm_compute in {|
    word_bytes := 4;
    K := map (root_fraction 3 32) (first_primes 64);
    IV := state_of_list (map (root_fraction 2 32) (first_primes 8));
    Sigma0_by := (2, 13, 22)%N;
    Sigma1_by := (6, 11, 25)%N;
    sigma0_by := (7, 18, 3)%N;
    sigma1_by := (17, 19, 10)%N
  |}.

Definition sha512_variant : variant :=
  Eval vm_compute in {|
    word_bytes := 8;
    K := map (root_fraction 3 64) (first_primes 80);
    IV := state_of_list (map (root_fraction 2 64) (first_primes 8));
    Sigma0_by := (28, 34, 39)%N;
    Sigma1_by := (14, 18, 41)%N;
    sigma0_by := (1, 8, 7)%N;
    sigma1_by := (19, 61, 6)%N
  |}.

End SHA2.

(** ** The [hashlib] and [hmac] modules *)

Module hashlib.

(** [hashlib.sha256(m).digest()] *)
Definition sha256 (m : bytes) : bytes := SHA2.digest SHA2.sha256_variant m.

(** [hashlib.sha512(m).digest()] *)
Definition sha512 (m : bytes) : bytes := SHA2.digest SHA2.sha512_variant m.

Definition hex_digit (n : N) : ascii :=
  match n with
  | 0 => "0" | 1 => "1" | 2 => "2" | 3 => "3" | 4 => "4" | 5 => "5"
  | 6 => "6" | 7 => "7" | 8 => "8" | 9 => "9" | 10 => "a" | 11 => "b"
  | 12 => "c" | 13 => "d" | 14 => "e" | _ => "f"
  end%N%char.

(** [bs.hex()]: two lower-case digits per byte. *)
Fixpoint hex (bs : bytes) : string :=
  match bs with
  | [] => EmptyString
  | b :: rest =>
      String (hex_digit (Byte.to_N b / 16))
        (String (hex_digit (Byte.to_N b mod 16)) (hex rest))
  end.

(** [hashlib.sha256(m).hexdigest()] *)
Definition sha256_hexdigest (m : bytes) : string := hex (sha256 m).

(** [hashlib.sha512(m).hexdigest()] *)
Definition sha512_hexdigest (m : bytes) : string := hex (sha512 m).

End hashlib.

Module hmac.

(** [hmac.new(key, msg, hashlib.sha512).digest()] (RFC 2104, block of 128
    bytes). *)
Definition new_sha512_digest (key msg : bytes) : bytes :=
  let block := SHA2.block_bytes SHA2.sha512_variant in
  let k0 := if decide (block < length key) then hashlib.sha512 key else key in
  let k := k0 ++ repeat Byte.x00 (block - length k0) in
  hashlib.sha512 (map (byte_xor Byte.x5c) k
                    ++ hashlib.sha512 (map (byte_xor Byte.x36) k ++ msg)).

(** [hmac.compare_digest(a, b)] on two [bytes] objects. *)
Definition compare_digest (a b : bytes) : bool := bool_decide (a = b).

End hmac.

(** [s.encode('utf-8')] *)
Definition encode_utf8 (s : string) : bytes := String.list_byte_of_string s.

(** ** Python built-ins *)

(** Where an index of a slice lands in a sequence of [len] items. *)
Definition py_index (len i : Z) : Z :=
  if bool_decide (i < 0)%Z then Z.max (i + len) 0 else Z.min i len.

(** [s[lo:hi]] *)
Definition py_slice {A} (s : list A) (lo hi : Z) : list A :=
  let len := Z.of_nat (length s) in
  let start := py_index len lo in
  let stop := py_index len hi in
  take (Z.to_nat (stop - start)) (drop (Z.to_nat start) s).

(** [s[lo:]] *)
Definition py_slice_from {A} (s : list A) (lo : Z) : list A :=
  py_slice s lo (Z.of_nat (length s)).

(** [s[:hi]] *)
Definition py_slice_to {A} (s : list A) (hi : Z) : list A :=
  py_slice s 0 hi.

(** [s[:hi]] on a [str]. *)
Definition py_str_slice_to (s : string) (hi : Z) : string :=
  String.string_of_list_ascii (py_slice_to (String.list_ascii_of_string s) hi).

(** [len(s)] *)
Definition len {A} (s : list A) : Z := Z.of_nat (length s).

(** [range(n)] *)
Definition range (n : Z) : list Z := seqZ 0 n.

(** [l[i]] for an index the source keeps in range. *)
Definition getitem {A} `{Inhabited A} (l : list A) (i : Z) : A :=
  l !!! Z.to_nat i.

(** [bin(b).count('1')] *)
Definition bit_count (b : byte) : Z :=
  foldr (fun i acc => ((if N.testbit (Byte.to_N b) i then 1 else 0) + acc)%Z)
        0%Z [0; 1; 2; 3; 4; 5; 6; 7]%N.

(** [sum(bin(b).count('1') for b in key)] *)
Definition count_ones (key : bytes) : Z :=
  foldr (fun b acc => (bit_count b + acc)%Z) 0%Z key.

(** ** Errors, the world, and the monad of method calls *)

(** Why [_validate_hardware_keys] rejects a key pair; one case per message. *)
Inductive key_fault :=
| IcKeyLength (got : Z)        (* "IC key must be 32 bytes, got {n}" *)
| PhoneKeyLength (got : Z)     (* "Phone key must be 32 bytes, got {n}" *)
| IcKeyAllZeros                (* "IC key cannot be all zeros" *)
| PhoneKeyAllZeros.            (* "Phone key cannot be all zeros" *)

(** The error kinds of the specification.  The source raises [ValueError]
    for each of them, telling them apart by the raise site. *)
Inductive error :=
| InvalidKeyMaterial (why : key_fault)  (* SecurityCore._validate_hardware_keys *)
| FingerprintMismatch                   (* SecurityCore.unprotect_data *)
| AuthenticationFailure                 (* EncryptionEngine.decrypt *)
| TamperDetected                        (* CanaryTokenManager.verify_and_extract *)
| CorruptedPayload                      (* the record does not parse *)
| InvalidSeedMaterial                   (* named by the specification only *)
| KeyError (key : string).              (* [d[key]] on an absent key *)

(** The methods whose entry is recorded. *)
Inductive method :=
| protect_data_entered
| unprotect_data_entered
| validate_hardware_keys_entered
| generate_key_fingerprint_entered
| split_into_fragments_advanced_entered
| reconstruct_data_advanced_entered
| serialize_entered
| deserialize_entered
| inject_tokens_entered
| verify_and_extract_entered
| encrypt_entered
| decrypt_entered
| aes_ctr_encrypt_entered
| aes_ctr_decrypt_entered
| generate_keystream_entered
| compute_hmac_entered
| verify_hmac_entered
| create_fragment_b_entered
| verify_fragment_binding_entered
| compute_merkle_root_entered
| verify_merkle_root_entered
| hkdf_derive_entered
| derive_keys_from_public_entered.

#[global] Instance key_fault_eq_decision : EqDecision key_fault.
Proof. solve_decision. Defined.
#[global] Instance error_eq_decision : EqDecision error.
Proof. solve_decision. Defined.
#[global] Instance method_eq_decision : EqDecision method.
Proof. solve_decision. Defined.

(** What lies outside a call: the operating system's random bytes (the
    source of [secrets.token_bytes]) with the number already drawn, the
    clock, and the methods entered so far, oldest first. *)
Record world := World {
  entropy : nat -> byte;
  drawn : nat;
  clock : string;
  trace : list method
}.

(** How a call ends.  [FuelExhausted] belongs to the model alone: a [while]
    loop is unrolled a bounded number of times. *)
Inductive outcome (A : Type) :=
| Returned (a : A)
| Raised (e : error)
| FuelExhausted.
Arguments Returned {A} a.
Arguments Raised {A} e.
Arguments FuelExhausted {A}.

Definition py (A : Type) : Type := world -> world * outcome A.

Definition ret {A} (a : A) : py A := fun w => (w, Returned a).

Definition bind {A B} (c : py A) (k : A -> py B) : py B :=
  fun w =>
    match c w with
    | (w', Returned a) => k a w'
    | (w', Raised e) => (w', Raised e)
    | (w', FuelExhausted) => (w', FuelExhausted)
    end.

Definition raise {A} (e : error) : py A := fun w => (w, Raised e).

Definition out_of_fuel {A} : py A := fun w => (w, FuelExhausted).

Notation "'do' x <- c ; k" := (bind c (fun x => k))
  (at level 10, x name, c at level 100, k at level 200,
   format "'[v' 'do'  x  <-  c ; '/' k ']'").
Notation "'do' ' p <- c ; k" := (bind c (fun p => k))
  (at level 10, p strict pattern, c at level 100, k at level 200,
   format "'[v' 'do'  ' p  <-  c ; '/' k ']'").
Notation "'run' c ; k" := (bind c (fun _ => k))
  (at level 10, c at level 100, k at level 200,
   format "'[v' 'run'  c ; '/' k ']'").

(** The world after the methods [ms] have been entered. *)
Definition entering (ms : list method) (w : world) : world :=
  {| entropy := entropy w; drawn := drawn w; clock := clock w;
     trace := trace w ++ ms |}.

(** The world after [n] more random bytes have been drawn. *)
Definition advance (n : nat) (w : world) : world :=
  {| entropy := entropy w; drawn := drawn w + n; clock := clock w;
     trace := trace w |}.

(** The [n] random bytes that follow the first [skip] undrawn ones. *)
Definition draw (w : world) (skip n : nat) : bytes :=
  map (entropy w) (seq (drawn w + skip) n).

(** Entering method [m]. *)
Definition enter (m : method) : py unit :=
  fun w => (entering [m] w, Returned tt).

(** [secrets.token_bytes(n)] *)
Definition token_bytes (n : Z) : py bytes :=
  fun w => (advance (Z.to_nat n) w, Returned (draw w 0 (Z.to_nat n))).

(** [datetime.now().isoformat()] *)
Definition now_isoformat : py string := fun w => (w, Returned (clock w)).

(** [[f(x) for x in xs]] for an [f] with effects. *)
Fixpoint for_each {A B} (f : A -> py B) (xs : list A) : py (list B) :=
  match xs with
  | [] => ret []
  | x :: rest => do y <- f x; do ys <- for_each f rest; ret (y :: ys)
  end.

(** The value a call returns from [w], if it returns. *)
Definition result_of {A} (c : py A) (w : world) : outcome A := snd (c w).

(** The methods a call enters from [w], in order. *)
Definition entered_by {A} (c : py A) (w : world) : list method :=
  drop (length (trace w)) (trace (fst (c w))).

(** A bytes literal [b"..."]. *)
Definition bytes_literal (s : string) : bytes := String.list_byte_of_string s.

(** ** [core/ecc_hardware_manager.py] *)

Module ECCHardwareManager.

(** The attributes [__init__] sets. *)
Definition curve : string := "P-256".
Definition key_size : Z := 32.

Definition _hkdf_derive (input_material salt info : bytes) : py bytes :=
  run enter hkdf_derive_entered;
  let prk := hashlib.sha256 (salt ++ input_material) in
  let okm := hashlib.sha256 (prk ++ info ++ [Byte.x01]) in
  ret (py_slice_to okm key_size).

Definition ic_salt : bytes := bytes_literal "OBSIDIAN_IC_CARD_KEY_V1".
Definition phone_salt : bytes := bytes_literal "OBSIDIAN_PHONE_KEY_V1".

Definition derive_keys_from_public
    (card_public_key phone_public_key : bytes) (did : string)
    : py (bytes * bytes) :=
  run enter derive_keys_from_public_entered;
  do ic_key <- _hkdf_derive card_public_key ic_salt (encode_utf8 did);
  do phone_key <- _hkdf_derive phone_public_key phone_salt (encode_utf8 did);
  ret (ic_key, phone_key).

Definition generate_key_fingerprint (ic_key phone_key : bytes) : py string :=
  run enter generate_key_fingerprint_entered;
  let combined := ic_key ++ phone_key in
  let fingerprint_hash := hashlib.sha256_hexdigest combined in
  ret (py_str_slice_to fingerprint_hash 16).

(** The message of the pair [validate_hardware_keys] returns. *)
Inductive message :=
| ic_key_must_be_32_bytes (got : Z)
| phone_key_must_be_32_bytes (got : Z)
| ic_key_cannot_be_all_zeros
| phone_key_cannot_be_all_zeros
| ic_key_has_unusual_entropy (ones : Z)
| phone_key_has_unusual_entropy (ones : Z)
| hardware_keys_valid.

(** [e < 0.3 or e > 0.7] for [e = ones / (32 * 8)].  The quotient by 256
    is exact in binary floating point and no multiple of 1/256 lies
    between 3/10 or 7/10 and the double nearest to it, so the two
    comparisons are those of the rationals, cleared of denominators. *)
Definition unusual_entropy (ones : Z) : bool :=
  bool_decide (10 * ones < 3 * (32 * 8))%Z
  || bool_decide (10 * ones > 7 * (32 * 8))%Z.

Definition validate_hardware_keys (ic_key phone_key : bytes)
    : py (bool * message) :=
  run enter validate_hardware_keys_entered;
  if bool_decide (len ic_key ≠ 32%Z) then
    ret (false, ic_key_must_be_32_bytes (len ic_key))
  else if bool_decide (len phone_key ≠ 32%Z) then
    ret (false, phone_key_must_be_32_bytes (len phone_key))
  else if bool_decide (ic_key = repeat Byte.x00 32) then
    ret (false, ic_key_cannot_be_all_zeros)
  else if bool_decide (phone_key = repeat Byte.x00 32) then
    ret (false, phone_key_cannot_be_all_zeros)
  else
    let ic_ones := count_ones ic_key in
    let phone_ones := count_ones phone_key in
    if unusual_entropy ic_ones then
      ret (false, ic_key_has_unusual_entropy ic_ones)
    else if unusual_entropy phone_ones then
      ret (false, phone_key_has_unusual_entropy phone_ones)
    else ret (true, hardware_keys_valid).

(** [verify_hardware_signature]: no effect and no raise, so a function. *)
Definition verify_hardware_signature (data signature public_key : bytes)
    : bool :=
  let expected := hashlib.sha256 (public_key ++ data) in
  bool_decide (signature = py_slice_to expected (len signature)).

End ECCHardwareManager.

(** ** [core/canary_tokens.py] *)

Module CanaryTokenManager.

(** The attributes [__init__] sets. *)
Definition token_size : Z := 16.
Definition num_tokens : Z := 3.

(** The chunk the first loop of [inject_tokens] appends at index [i]. *)
Definition chunk_at (data : bytes) (chunk_size i : Z) : bytes :=
  let start := (i * chunk_size)%Z in
  if bool_decide (i = num_tokens - 1)%Z then py_slice_from data start
  else py_slice data start (start + chunk_size).

Definition inject_tokens (data : bytes) : py (bytes * bytes) :=
  run enter inject_tokens_entered;
  do canaries <- for_each (fun _ => token_bytes token_size) (range num_tokens);
  let chunk_size := (len data `div` num_tokens)%Z in
  let chunks := map (chunk_at data chunk_size) (range num_tokens) in
  let result :=
    fold_left (fun result i => result ++ getitem chunks i ++ getitem canaries i)
              (range num_tokens) [] in
  let verification := hashlib.sha256 (concat canaries) in
  ret (result, verification).

(** One turn of the loop of [verify_and_extract] over
    [(chunks, canaries, offset)]. *)
Definition extract_step (data_with_canaries : bytes)
    (original_length chunk_size : Z)
    (st : list bytes * list bytes * Z) (i : Z) : list bytes * list bytes * Z :=
  let '(chunks, canaries, offset) := st in
  let '(chunks, offset) :=
    if bool_decide (i = num_tokens - 1)%Z then
      let remaining := (original_length - chunk_size * (num_tokens - 1))%Z in
      (chunks ++ [py_slice data_with_canaries offset (offset + remaining)],
       (offset + remaining)%Z)
    else
      (chunks ++ [py_slice data_with_canaries offset (offset + chunk_size)],
       (offset + chunk_size)%Z) in
  (chunks,
   canaries ++ [py_slice data_with_canaries offset (offset + token_size)],
   (offset + token_size)%Z).

Definition verify_and_extract (data_with_canaries verification : bytes)
    (original_length : Z) : py bytes :=
  run enter verify_and_extract_entered;
  let chunk_size := (original_length `div` num_tokens)%Z in
  let '(chunks, canaries, _) :=
    fold_left (extract_step data_with_canaries original_length chunk_size)
              (range num_tokens) ([], [], 0%Z) in
  let computed_verification := hashlib.sha256 (concat canaries) in
  if negb (hmac.compare_digest verification computed_verification) then
    raise TamperDetected
  else ret (concat chunks).

End CanaryTokenManager.

(** ** [core/encryption_engine.py] *)

Module EncryptionEngine.

(** The attributes [__init__] sets. *)
Definition nonce_size : Z := 16.
Definition hmac_size : Z := 64.

(** The [while] loop of [_generate_keystream], at most [fuel] turns.
    [counter.to_bytes(8, 'big')] would overflow from [2 ^ 64] on; a
    [bytes] object is shorter than [2 ^ 63], which keeps the counter
    below [2 ^ 57]. *)
Fixpoint keystream_loop (fuel : nat) (key nonce : bytes) (length : Z)
    (keystream : bytes) (counter : Z) : option bytes :=
  if bool_decide (len keystream < length)%Z then
    match fuel with
    | O => None
    | S fuel' =>
        let block_input := nonce ++ to_bytes_big 8 (Z.to_N counter) in
        let block := hmac.new_sha512_digest key block_input in
        keystream_loop fuel' key nonce length (keystream ++ block)
                       (counter + 1)%Z
    end
  else Some keystream.

Definition _generate_keystream (key nonce : bytes) (length : Z) : py bytes :=
  run enter generate_keystream_entered;
  match keystream_loop (Z.to_nat length) key nonce length [] 0%Z with
  | Some keystream => ret (py_slice_to keystream length)
  | None => out_of_fuel
  end.

(** The bytes [_generate_keystream] returns (see
    [generate_keystream_returns]). *)
Definition keystream (key nonce : bytes) (length : Z) : bytes :=
  match keystream_loop (Z.to_nat length) key nonce length [] 0%Z with
  | Some keystream => py_slice_to keystream length
  | None => []
  end.

Definition _compute_hmac (data key : bytes) : py bytes :=
  run enter compute_hmac_entered;
  ret (hmac.new_sha512_digest key data).

Definition _verify_hmac (data key tag : bytes) : py bool :=
  run enter verify_hmac_entered;
  do expected <- _compute_hmac data key;
  ret (hmac.compare_digest expected tag).

Definition _aes_ctr_encrypt (data key nonce : bytes) : py bytes :=
  run enter aes_ctr_encrypt_entered;
  do keystream <- _generate_keystream key nonce (len data);
  let ciphertext :=
    imap (fun i byte => byte_xor byte (getitem keystream (Z.of_nat i))) data in
  ret ciphertext.

Definition _aes_ctr_decrypt (data key nonce : bytes) : py bytes :=
  run enter aes_ctr_decrypt_entered;
  _aes_ctr_encrypt data key nonce.

Definition encrypt (plaintext encryption_key authentication_key : bytes)
    (nonce : option bytes) : py (bytes * bytes * bytes) :=
  run enter encrypt_entered;
  do nonce <- match nonce with
              | None => token_bytes nonce_size
              | Some nonce => ret nonce
              end;
  do ciphertext <- _aes_ctr_encrypt plaintext encryption_key nonce;
  do hmac_tag <- _compute_hmac ciphertext authentication_key;
  ret (ciphertext, nonce, hmac_tag).

Definition decrypt
    (ciphertext encryption_key authentication_key nonce hmac_tag : bytes)
    : py bytes :=
  run enter decrypt_entered;
  do verified <- _verify_hmac ciphertext authentication_key hmac_tag;
  if negb verified then raise AuthenticationFailure
  else
    do plaintext <- _aes_ctr_decrypt ciphertext encryption_key nonce;
    ret plaintext.

End EncryptionEngine.

(** ** [core/fragmenter.py] *)

Module DataFragmenter.

(** The attribute [__init__] sets. *)
Definition fragment_b_size : Z := 32.

Definition create_fragment_b (fragment_a ic_key phone_key : bytes)
    : py bytes :=
  run enter create_fragment_b_entered;
  let binding_data :=
    hashlib.sha512 fragment_a ++ hashlib.sha512 ic_key
      ++ hashlib.sha512 phone_key in
  let fragment_b := py_slice_to (hashlib.sha512 binding_data) fragment_b_size in
  ret fragment_b.

Definition verify_fragment_binding
    (fragment_a fragment_b ic_key phone_key : bytes) : py bool :=
  run enter verify_fragment_binding_entered;
  do expected_b <- create_fragment_b fragment_a ic_key phone_key;
  ret (bool_decide (fragment_b = expected_b)).

Definition compute_merkle_root (fragment_a fragment_b : bytes) : py string :=
  run enter compute_merkle_root_entered;
  let hash_a := hashlib.sha512 fragment_a in
  let hash_b := hashlib.sha512 fragment_b in
  let combined := hash_a ++ hash_b in
  let first_hash := hashlib.sha512 combined in
  let merkle_root := hashlib.sha512_hexdigest first_hash in
  ret merkle_root.

Definition verify_merkle_root (fragment_a fragment_b : bytes)
    (expected_root : string) : py bool :=
  run enter verify_merkle_root_entered;
  do computed_root <- compute_merkle_root fragment_a fragment_b;
  ret (bool_decide (computed_root = expected_root)).

End DataFragmenter.

(** ** Metadata: a [dict] with [str] keys *)

Inductive value :=
| VStr (s : string)
| VInt (n : Z)
| VBool (b : bool)
| VBytes (b : bytes)
| VStrList (l : list string).

#[global] Instance value_eq_decision : EqDecision value.
Proof. solve_decision. Defined.

(** [d.update({k1: v1, ...})] *)
Definition dict_update (d : gmap string value) (items : list (string * value))
    : gmap string value :=
  fold_left (fun d kv => <[kv.1 := kv.2]> d) items d.

(** What [key_derivation.py] imports from [data_fragmentation_advanced], a
    module of the repository that is not under [src/].  The fingerprint is
    a digest: a function of the two keys. *)
Record data_fragmentation_advanced (record : Type) := Imports {
  split_into_fragments_advanced :
    record -> bytes -> bytes -> bool -> bool -> Z ->
    py (bytes * bytes * string * gmap string value);
  reconstruct_data_advanced :
    bytes -> bytes -> bytes -> bytes -> gmap string value -> bool -> py record;
  generate_key_fingerprint : bytes -> bytes -> string
}.
Arguments split_into_fragments_advanced {record} _.
Arguments reconstruct_data_advanced {record} _.
Arguments generate_key_fingerprint {record} _.

(** ** [core/key_derivation.py]: [SecurityCore] *)

Module SecurityCore.

(** The attributes [__init__] sets. *)
Definition version : string := "2.0-iron-vault".
Definition security_level : string := "military-grade".
Definition compliance : list string := ["PDPA-2010"; "MAMPU"; "FIPS-140-2"].

Definition _validate_hardware_keys (ic_key phone_key : bytes) : py unit :=
  run enter validate_hardware_keys_entered;
  if bool_decide (len ic_key ≠ 32%Z) then
    raise (InvalidKeyMaterial (IcKeyLength (len ic_key)))
  else if bool_decide (len phone_key ≠ 32%Z) then
    raise (InvalidKeyMaterial (PhoneKeyLength (len phone_key)))
  else if bool_decide (ic_key = repeat Byte.x00 32) then
    raise (InvalidKeyMaterial IcKeyAllZeros)
  else if bool_decide (phone_key = repeat Byte.x00 32) then
    raise (InvalidKeyMaterial PhoneKeyAllZeros)
  else ret tt.

Section WithImports.
Context {record : Type} (imports : data_fragmentation_advanced record).

Definition protect_data (data : record) (ic_key phone_key : bytes)
    (enable_anti_tampering enable_time_lock : bool)
    (time_lock_duration : Z)
    : py (bytes * bytes * string * gmap string value) :=
  run enter protect_data_entered;
  run _validate_hardware_keys ic_key phone_key;
  run enter generate_key_fingerprint_entered;
  let key_fingerprint := generate_key_fingerprint imports ic_key phone_key in
  do '(fragment_a, fragment_b, merkle_root, metadata) <-
    split_into_fragments_advanced imports data ic_key phone_key
      enable_anti_tampering enable_time_lock time_lock_duration;
  do timestamp <- now_isoformat;
  let metadata :=
    dict_update metadata
      [("security_core_version", VStr version);
       ("key_fingerprint", VStr key_fingerprint);
       ("protection_timestamp", VStr timestamp);
       ("compliance_standards", VStrList compliance)] in
  ret (fragment_a, fragment_b, merkle_root, metadata).

Definition unprotect_data (fragment_a fragment_b ic_key phone_key : bytes)
    (metadata : gmap string value) (skip_time_lock : bool) : py record :=
  run enter unprotect_data_entered;
  run _validate_hardware_keys ic_key phone_key;
  let stored_fingerprint := metadata !! "key_fingerprint" in
  run enter generate_key_fingerprint_entered;
  let current_fingerprint := generate_key_fingerprint imports ic_key phone_key in
  if bool_decide (stored_fingerprint ≠ Some (VStr current_fingerprint)) then
    raise FingerprintMismatch
  else
    do data <-
      reconstruct_data_advanced imports fragment_a fragment_b ic_key
        phone_key metadata skip_time_lock;
    ret data.
End WithImports.

End SecurityCore.

(** ** The pipeline of [data_fragmentation_advanced], from the specification *)

Module AdvancedFragmentation.

(** The canonical byte form of a record and its parser. *)
Record codec (record : Type) := {
  serialize : record -> bytes;
  deserialize : bytes -> option record
}.
Arguments serialize {record} _.
Arguments deserialize {record} _.

(** Which of the two hardware keys yields the encryption key and which
    the authentication key: the "fixed convention" of section 4.5. *)
Record key_convention := {
  encryption_key_of : bytes -> bytes -> bytes;
  authentication_key_of : bytes -> bytes -> bytes
}.

(** Modelled from the spec: [generate_key_fingerprint] of the absent module
    [data_fragmentation_advanced]; "digest of (keyA ‖ keyB)", 16
    hexadecimal characters, computed as the two fingerprint methods under
    [src/] compute it. *)
Definition generate_key_fingerprint (ic_key phone_key : bytes) : string :=
  py_str_slice_to (hashlib.sha256_hexdigest (ic_key ++ phone_key)) 16.

(** [d[key]] where an [int] is expected. *)
Definition lookup_int (d : gmap string value) (key : string) : py Z :=
  match d !! key with
  | Some (VInt n) => ret n
  | _ => raise (KeyError key)
  end.

(** [d[key]] where a [bytes] object is expected. *)
Definition lookup_bytes (d : gmap string value) (key : string) : py bytes :=
  match d !! key with
  | Some (VBytes b) => ret b
  | _ => raise (KeyError key)
  end.

Section Pipeline.
Context {record : Type} (format : codec record) (keys : key_convention).

(** Modelled from the spec: [split_into_fragments_advanced] of the absent
    module [data_fragmentation_advanced], the body of [protect] in
    section 4.5: serialize, inject canaries, encrypt, split into
    FragmentA (nonce ‖ tag ‖ ciphertext), bind FragmentB, compute the
    commitment, fill the metadata.  The specification does not say where
    the canary verification value travels; [unprotect] receives nothing
    but the fragments, the keys and the metadata, so it is stored in the
    metadata beside the original size. *)
Definition split_into_fragments_advanced (data : record)
    (ic_key phone_key : bytes)
    (enable_anti_tampering enable_time_lock : bool)
    (time_lock_duration : Z)
    : py (bytes * bytes * string * gmap string value) :=
  run enter split_into_fragments_advanced_entered;
  run enter serialize_entered;
  let plain := serialize format data in
  do '(marked, verification) <- CanaryTokenManager.inject_tokens plain;
  do '(ciphertext, nonce, tag) <-
    EncryptionEngine.encrypt marked
      (encryption_key_of keys ic_key phone_key)
      (authentication_key_of keys ic_key phone_key) None;
  let fragment_a := nonce ++ tag ++ ciphertext in
  do fragment_b <- DataFragmenter.create_fragment_b fragment_a ic_key phone_key;
  do merkle_root <- DataFragmenter.compute_merkle_root fragment_a fragment_b;
  do created_at <- now_isoformat;
  let metadata : gmap string value :=
    list_to_map
      [("algorithm", VStr "AES-256-CTR+HMAC-SHA512");
       ("canary_count", VInt CanaryTokenManager.num_tokens);
       ("canary_verification", VBytes verification);
       ("original_size", VInt (len plain));
       ("fragment_a_size", VInt (len fragment_a));
       ("fragment_b_size", VInt (len fragment_b));
       ("anti_tampering", VBool enable_anti_tampering);
       ("created_at", VStr created_at)] in
  ret (fragment_a, fragment_b, merkle_root, metadata).

(** Modelled from the spec: [reconstruct_data_advanced] of the absent
    module [data_fragmentation_advanced], the body of [unprotect] in
    section 4.5 after the fingerprint check: parse nonce, tag and
    ciphertext out of FragmentA, decrypt, extract the canaries,
    deserialize ([CorruptedPayload] when the bytes do not parse). *)
Definition reconstruct_data_advanced
    (fragment_a fragment_b ic_key phone_key : bytes)
    (metadata : gmap string value) (skip_time_lock : bool) : py record :=
  run enter reconstruct_data_advanced_entered;
  let nonce := py_slice_to fragment_a EncryptionEngine.nonce_size in
  let tag :=
    py_slice fragment_a EncryptionEngine.nonce_size
      (EncryptionEngine.nonce_size + EncryptionEngine.hmac_size) in
  let ciphertext :=
    py_slice_from fragment_a
      (EncryptionEngine.nonce_size + EncryptionEngine.hmac_size) in
  do marked <-
    EncryptionEngine.decrypt ciphertext
      (encryption_key_of keys ic_key phone_key)
      (authentication_key_of keys ic_key phone_key) nonce tag;
  do verification <- lookup_bytes metadata "canary_verification";
  do original_size <- lookup_int metadata "original_size";
  do plain <-
    CanaryTokenManager.verify_and_extract marked verification original_size;
  run enter deserialize_entered;
  match deserialize format plain with
  | Some data => ret data
  | None => raise CorruptedPayload
  end.

(** The three imports of [key_derivation.py], as modelled. *)
Definition imports : data_fragmentation_advanced record :=
  Imports record split_into_fragments_advanced reconstruct_data_advanced
          generate_key_fingerprint.
End Pipeline.

End AdvancedFragmentation.

(** ** Vocabulary of the statements *)

(** The key pairs [SecurityCore._validate_hardware_keys] lets through. *)
Definition passes_validation (ic_key phone_key : bytes) : Prop :=
  len ic_key = 32%Z ∧ len phone_key = 32%Z
  ∧ ic_key ≠ repeat Byte.x00 32 ∧ phone_key ≠ repeat Byte.x00 32.

(** The methods in which keystream bytes are produced or XORed with data. *)
Definition computes_keystream_or_xor (m : method) : Prop :=
  m ∈ [aes_ctr_encrypt_entered; aes_ctr_decrypt_entered;
       generate_keystream_entered].

(** The methods that take part in decrypting a fragment. *)
Definition attempts_decryption (m : method) : Prop :=
  m ∈ [reconstruct_data_advanced_entered; decrypt_entered; verify_hmac_entered;
       compute_hmac_entered; aes_ctr_decrypt_entered; aes_ctr_encrypt_entered;
       generate_keystream_entered; verify_and_extract_entered;
       deserialize_entered].

(** The token bytes [verify_and_extract] reads: with chunk size
    [c = original_length // 3], the three 16-byte windows that follow the
    first, the second and the last chunk. *)
Definition tokens_at_stride (data_with_canaries : bytes) (original_length : Z)
    : list bytes :=
  let c := (original_length `div` 3)%Z in
  [py_slice data_with_canaries c (c + 16);
   py_slice data_with_canaries (2 * c + 16) (2 * c + 32);
   py_slice data_with_canaries (original_length + 32) (original_length + 48)].

(** The chunks between them. *)
Definition chunks_at_stride (data_with_canaries : bytes) (original_length : Z)
    : list bytes :=
  let c := (original_length `div` 3)%Z in
  [py_slice data_with_canaries 0 c;
   py_slice data_with_canaries (c + 16) (2 * c + 16);
   py_slice data_with_canaries (2 * c + 32) (original_length + 32)].

(** The derived key in the words of the specification: the first 32 bytes
    of hash(hash(salt ‖ seed) ‖ context ‖ 0x01). *)
Definition derived_key_of_spec (seed salt context : bytes) : bytes :=
  take 32
    (hashlib.sha256 (hashlib.sha256 (salt ++ seed) ++ context ++ [Byte.x01])).

(** The binding token in the words of the specification:
    truncate32(hash(hash(fragmentA) ‖ hash(keyA) ‖ hash(keyB))). *)
Definition binding_of_spec (fragment_a key_a key_b : bytes) : bytes :=
  take 32
    (hashlib.sha512
       (hashlib.sha512 fragment_a ++ hashlib.sha512 key_a
          ++ hashlib.sha512 key_b)).

(** The commitment in the words of the specification:
    hash(hash(hash(A) ‖ hash(B))), in hexadecimal. *)
Definition commitment_of_spec (fragment_a fragment_b : bytes) : string :=
  hashlib.hex
    (hashlib.sha512
       (hashlib.sha512 (hashlib.sha512 fragment_a ++ hashlib.sha512 fragment_b))).

(** Fragment A in the words of the specification: nonce ‖ tag ‖ ciphertext,
    for the canary-marked plaintext [marked]. *)
Definition fragment_a_of_spec
    (encryption_key authentication_key nonce marked : bytes) : bytes :=
  let ciphertext :=
    zip_with byte_xor marked
      (EncryptionEngine.keystream encryption_key nonce (len marked)) in
  nonce ++ hmac.new_sha512_digest authentication_key ciphertext ++ ciphertext.

(** Two different inputs with the same SHA-512 digest. *)
Definition sha512_collision (x y : bytes) : Prop :=
  x ≠ y ∧ hashlib.sha512 x = hashlib.sha512 y.

(** ** Sample inputs *)

(** The keys of scenarios A and C of the specification, a key of low
    entropy, two nonces, a world whose random bytes count upwards, and a
    short record in its byte form. *)
Module Sample.
Definition key_11 : bytes := repeat Byte.x11 32.
Definition key_22 : bytes := repeat Byte.x22 32.
Definition key_33 : bytes := repeat Byte.x33 32.
Definition key_01 : bytes := repeat Byte.x01 32.
Definition nonce_a : bytes := repeat Byte.x0a 16.
Definition nonce_b : bytes := repeat Byte.x0b 16.
Definition world0 : world := {|
  entropy := fun n => byte_of_N (N.of_nat n);
  drawn := 0;
  clock := "2024-01-01T00:00:00";
  trace := []
|}.
Definition ahmad : bytes := bytes_literal "name=Ahmad;ic=123".
End Sample.

(** The sample pipeline: records are kept in their byte form, the IC key
    encrypts and the phone key authenticates. *)
Module SamplePipeline.
Definition format : AdvancedFragmentation.codec bytes := {|
  AdvancedFragmentation.serialize := fun data => data;
  AdvancedFragmentation.deserialize := fun plain => Some plain
|}.
Definition convention : AdvancedFragmentation.key_convention := {|
  AdvancedFragmentation.encryption_key_of := fun ic_key _ => ic_key;
  AdvancedFragmentation.authentication_key_of := fun _ phone_key => phone_key
|}.
Definition imports : data_fragmentation_advanced bytes :=
  AdvancedFragmentation.imports format convention.
End SamplePipeline.

(** ** Vocabulary of the further properties *)

(** Block [i] of the keystream: the keyed hash of the nonce followed by the
    counter [i] on 8 bytes. *)
Definition keystream_block (key nonce : bytes) (i : nat) : bytes :=
  hmac.new_sha512_digest key (nonce ++ to_bytes_big 8 (N.of_nat i)).

(** The first [k] blocks, one after the other. *)
Definition keystream_blocks (key nonce : bytes) (k : nat) : bytes :=
  concat (map (keystream_block key nonce) (seq 0 k)).

(** The number of 64-byte blocks that cover [n] bytes. *)
Definition blocks_needed (n : Z) : nat := Z.to_nat ((n + 63) `div` 64).

(** Two different inputs with the same SHA-256 digest. *)
Definition sha256_collision (x y : bytes) : Prop :=
  x ≠ y ∧ hashlib.sha256 x = hashlib.sha256 y.

(** Two different inputs whose SHA-512 digests share their first 32
    bytes. *)
Definition sha512_truncated_collision (x y : bytes) : Prop :=
  x ≠ y ∧ take 32 (hashlib.sha512 x) = take 32 (hashlib.sha512 y).

(** The number of one bits [ECCHardwareManager.validate_hardware_keys]
    accepts in a key of 32 bytes. *)
Definition balanced (key : bytes) : Prop :=
  (77 ≤ count_ones key ≤ 179)%Z.


(** Position [i] lies in one of the three token windows that
    [verify_and_extract] reads for [original_length = n]. *)
Definition in_token_window (n : Z) (i : nat) : Prop :=
  let c := (n `div` 3)%Z in
  (c ≤ Z.of_nat i < c + 16
   ∨ 2 * c + 16 ≤ Z.of_nat i < 2 * c + 32
   ∨ n + 32 ≤ Z.of_nat i < n + 48)%Z.

(** ** Structured records and their canonical byte form, from the specification *)

Module StructuredRecord.

(** Modelled from the spec: the values of a ProtectedRecord, "an in-memory
    structured key-value document, arbitrary shape" (section 3,
    [Map<string,Any>] in section 6; [Dict[str, Any]] in the signature of
    [SecurityCore.protect_data]).  No class of the sources defines them: a
    value is [None], a [bool], an [int], a [str], a list of values or a
    nested document.  Floating-point numbers are left out. *)
#[warnings="-register-all"] Inductive item :=
| Null
| Boolean (b : bool)
| Integer (n : Z)
| Text (s : string)
| Items (l : list item)
| Document (entries : list (string * item)).

(** Modelled from the spec: the ProtectedRecord itself, the entries of a
    [dict] with [str] keys in the order of their insertion. *)
Definition record : Type := list (string * item).

(** Modelled from the spec: the "canonical byte form" of section 4.5, whose
    serializer is in the absent module [data_fragmentation_advanced].  The
    specification fixes no format; this one is tagged and self-delimiting.
    A positive number is written in binary, lowest digit first, one byte
    per digit, and closed by [0x02]. *)
Fixpoint encode_positive (p : positive) : bytes :=
  match p with
  | xH => [Byte.x02]
  | xO p => Byte.x00 :: encode_positive p
  | xI p => Byte.x01 :: encode_positive p
  end.

(** Modelled from the spec: an [int] is a sign byte and its magnitude. *)
Definition encode_integer (n : Z) : bytes :=
  match n with
  | Z0 => [Byte.x00]
  | Zpos p => Byte.x01 :: encode_positive p
  | Zneg p => Byte.x02 :: encode_positive p
  end.

(** Modelled from the spec: a [str] is the number of its bytes and the
    bytes. *)
Definition encode_text (s : string) : bytes :=
  let raw := encode_utf8 s in
  encode_integer (len raw) ++ raw.

(** Modelled from the spec: a sequence is its elements, each behind the
    byte [0x01], closed by [0x00]. *)
Definition encode_sequence {A : Type} (encode : A → bytes) : list A → bytes :=
  fix go (l : list A) : bytes :=
    match l with
    | [] => [Byte.x00]
    | a :: rest => Byte.x01 :: encode a ++ go rest
    end.

(** Modelled from the spec: a value is a tag byte and its content; an entry
    of a document is its key and its value. *)
Fixpoint encode_item (v : item) : bytes :=
  match v with
  | Null => [Byte.x00]
  | Boolean false => [Byte.x01]
  | Boolean true => [Byte.x02]
  | Integer n => Byte.x03 :: encode_integer n
  | Text s => Byte.x04 :: encode_text s
  | Items l => Byte.x05 :: encode_sequence encode_item l
  | Document entries =>
      Byte.x06
      :: encode_sequence
           (fun entry => encode_text (fst entry) ++ encode_item (snd entry))
           entries
  end.

(** Modelled from the spec: "Serialize record to a canonical byte form". *)
Definition serialize (data : record) : bytes := encode_item (Document data).

(** Modelled from the spec: the parser of the canonical byte form, piece by
    piece; each function returns what it read and the bytes behind it. *)
Fixpoint decode_positive (input : bytes) : option (positive * bytes) :=
  match input with
  | Byte.x02 :: rest => Some (xH, rest)
  | Byte.x00 :: rest =>
      match decode_positive rest with
      | Some (p, rest') => Some (xO p, rest')
      | None => None
      end
  | Byte.x01 :: rest =>
      match decode_positive rest with
      | Some (p, rest') => Some (xI p, rest')
      | None => None
      end
  | _ => None
  end.

Definition decode_integer (input : bytes) : option (Z * bytes) :=
  match input with
  | Byte.x00 :: rest => Some (0%Z, rest)
  | Byte.x01 :: rest =>
      match decode_positive rest with
      | Some (p, rest') => Some (Zpos p, rest')
      | None => None
      end
  | Byte.x02 :: rest =>
      match decode_positive rest with
      | Some (p, rest') => Some (Zneg p, rest')
      | None => None
      end
  | _ => None
  end.

Definition decode_text (input : bytes) : option (string * bytes) :=
  match decode_integer input with
  | Some (n, rest) =>
      if bool_decide (0 ≤ n ≤ len rest)%Z
      then Some (String.string_of_list_byte (take (Z.to_nat n) rest),
                 drop (Z.to_nat n) rest)
      else None
  | None => None
  end.

Fixpoint decode_sequence {A : Type} (decode : bytes → option (A * bytes))
    (fuel : nat) (input : bytes) : option (list A * bytes) :=
  match fuel with
  | O => None
  | S fuel' =>
      match input with
      | Byte.x00 :: rest => Some ([], rest)
      | Byte.x01 :: rest =>
          match decode rest with
          | Some (a, rest') =>
              match decode_sequence decode fuel' rest' with
              | Some (l, rest'') => Some (a :: l, rest'')
              | None => None
              end
          | None => None
          end
      | _ => None
      end
  end.

(** The parser of a value descends at most [fuel] levels and reads at most
    [fuel] elements of each sequence. *)
Fixpoint decode_item (fuel : nat) (input : bytes) : option (item * bytes) :=
  match fuel with
  | O => None
  | S fuel' =>
      match input with
      | Byte.x00 :: rest => Some (Null, rest)
      | Byte.x01 :: rest => Some (Boolean false, rest)
      | Byte.x02 :: rest => Some (Boolean true, rest)
      | Byte.x03 :: rest =>
          match decode_integer rest with
          | Some (n, rest') => Some (Integer n, rest')
          | None => None
          end
      | Byte.x04 :: rest =>
          match decode_text rest with
          | Some (s, rest') => Some (Text s, rest')
          | None => None
          end
      | Byte.x05 :: rest =>
          match decode_sequence (decode_item fuel') fuel' rest with
          | Some (l, rest') => Some (Items l, rest')
          | None => None
          end
      | Byte.x06 :: rest =>
          match
            decode_sequence
              (fun input' =>
                 match decode_text input' with
                 | Some (key, input'') =>
                     match decode_item fuel' input'' with
                     | Some (v, rest') => Some ((key, v), rest')
                     | None => None
                     end
                 | None => None
                 end)
              fuel' rest
          with
          | Some (entries, rest') => Some (Document entries, rest')
          | None => None
          end
      | _ => None
      end
  end.

(** Modelled from the spec: "Deserialize back to the structured record; any
    structural parse failure is a CorruptedPayload": the bytes must be one
    document and nothing else. *)
Definition deserialize (plain : bytes) : option record :=
  match decode_item (S (length plain)) plain with
  | Some (Document entries, []) => Some entries
  | _ => None
  end.

(** Modelled from the spec: the serializer and the parser as the codec of
    the modelled pipeline. *)
Definition format : AdvancedFragmentation.codec record := {|
  AdvancedFragmentation.serialize := serialize;
  AdvancedFragmentation.deserialize := deserialize
|}.

(** The record of scenario A of the specification,
    [{name: Ahmad, ic: 123}] with both values strings. *)
Definition ahmad : record := [("name", Text "Ahmad"); ("ic", Text "123")].

End StructuredRecord.

(** Scenario A of the specification: its record, in the modelled pipeline
    with the canonical byte form and the key convention of the sample
    pipeline. *)
Module ScenarioA.
Definition imports : data_fragmentation_advanced StructuredRecord.record :=
  AdvancedFragmentation.imports StructuredRecord.format
    SamplePipeline.convention.
End ScenarioA.

(** ** Vocabulary of key validation *)

(** The methods behind key validation: every method but the two operations
    themselves and [_validate_hardware_keys]. *)
Definition pipeline_work (m : method) : Prop :=
  m ∉ [protect_data_entered; unprotect_data_entered;
       validate_hardware_keys_entered].

(** * Properties *)

(** ** Bytes and hashes *)

Lemma to_N_byte_of_N (n : N) : Byte.to_N (byte_of_N n) = (n mod 256)%N.
Proof.
  unfold byte_of_N.
  destruct (Byte.of_N (n mod 256)) as [b|] eqn:E.
  - by apply Byte.to_of_N.
  - apply Byte.of_N_None_iff in E.
    pose proof (N.mod_upper_bound n 256). lia.
Qed.

Lemma byte_of_N_to_N (b : byte) : byte_of_N (Byte.to_N b) = b.
Proof.
  unfold byte_of_N.
  pose proof (Byte.to_N_bounded b).
  rewrite N.mod_small by lia.
  by rewrite Byte.of_to_N.
Qed.

Lemma lxor_below (x y n : N) :
  (x < 2 ^ n)%N → (y < 2 ^ n)%N → (N.lxor x y < 2 ^ n)%N.
Proof.
  intros Hx Hy.
  destruct (decide (N.lxor x y = 0%N)) as [->|Hz]; [lia|].
  apply N.log2_lt_pow2; [lia|].
  assert (Hlog : ∀ z, (z < 2 ^ n)%N → z ≠ 0%N → (N.log2 z < n)%N).
  { intros z Hlt Hne. apply N.log2_lt_pow2; lia. }
  pose proof (N.log2_lxor x y) as Hmax.
  destruct (decide (x = 0%N)) as [->|Hx0].
  { rewrite N.lxor_0_l in *. by apply Hlog. }
  destruct (decide (y = 0%N)) as [->|Hy0].
  { rewrite N.lxor_0_r in *. by apply Hlog. }
  specialize (Hlog x Hx Hx0) as Hlx. specialize (Hlog y Hy Hy0) as Hly. lia.
Qed.

Lemma byte_xor_involutive (a b : byte) : byte_xor (byte_xor a b) b = a.
Proof.
  unfold byte_xor.
  rewrite to_N_byte_of_N.
  pose proof (Byte.to_N_bounded a). pose proof (Byte.to_N_bounded b).
  rewrite N.mod_small
    by (apply (lxor_below _ _ 8); simpl; lia).
  rewrite N.lxor_assoc, N.lxor_nilpotent, N.lxor_0_r.
  apply byte_of_N_to_N.
Qed.

Lemma length_to_bytes_big (n : nat) (x : N) : length (to_bytes_big n x) = n.
Proof.
  revert x. induction n as [|n IH]; intros x; simpl; [done|].
  rewrite length_app, IH. simpl. lia.
Qed.

Lemma length_digest (v : SHA2.variant) (m : bytes) :
  length (SHA2.digest v m) = 8 * SHA2.word_bytes v.
Proof.
  unfold SHA2.digest.
  destruct (fold_left _ _ _) as [[[[[[[h0 h1] h2] h3] h4] h5] h6] h7].
  cbn [map concat].
  rewrite !length_app, !length_to_bytes_big. simpl. lia.
Qed.

Lemma length_sha256 (m : bytes) : length (hashlib.sha256 m) = 32.
Proof. apply length_digest. Qed.

Lemma length_sha512 (m : bytes) : length (hashlib.sha512 m) = 64.
Proof. apply length_digest. Qed.

Lemma length_hmac (key msg : bytes) :
  length (hmac.new_sha512_digest key msg) = 64.
Proof. apply length_sha512. Qed.

Lemma length_hex (bs : bytes) :
  String.length (hashlib.hex bs) = 2 * length bs.
Proof. induction bs as [|b bs IH]; simpl; [done|]. rewrite IH. lia. Qed.

Lemma hex_digit_inj (m n : N) :
  (m < 16)%N → (n < 16)%N → hashlib.hex_digit m = hashlib.hex_digit n → m = n.
Proof.
  intros Hm Hn.
  assert (Hcases : ∀ k, (k < 16)%N →
    k ∈ [0; 1; 2; 3; 4; 5; 6; 7; 8; 9; 10; 11; 12; 13; 14; 15]%N).
  { intros k Hk. rewrite !elem_of_cons. lia. }
  pose proof (Hcases m Hm) as Hm'. pose proof (Hcases n Hn) as Hn'.
  rewrite !elem_of_cons, elem_of_nil in Hm', Hn'.
  destruct_or!; subst; try done; simpl; intros; discriminate.
Qed.

Lemma hex_inj (a b : bytes) : hashlib.hex a = hashlib.hex b → a = b.
Proof.
  revert b. induction a as [|x a IH]; intros [|y b]; simpl; try done.
  intros Heq. injection Heq as Hhi Hlo Hrest.
  pose proof (Byte.to_N_bounded x). pose proof (Byte.to_N_bounded y).
  apply hex_digit_inj in Hhi;
    [|apply N.Div0.div_lt_upper_bound; lia..].
  apply hex_digit_inj in Hlo; [|apply N.mod_upper_bound; lia..].
  f_equal; [|by apply IH].
  assert (Byte.to_N x = Byte.to_N y) as Hxy.
  { rewrite (N.div_mod (Byte.to_N x) 16), (N.div_mod (Byte.to_N y) 16) by lia.
    by rewrite Hhi, Hlo. }
  apply (f_equal Byte.of_N) in Hxy. rewrite !Byte.of_to_N in Hxy. by injection Hxy.
Qed.

(** The hash functions agree with [hashlib] and [hmac] on test vectors. *)
Example sha256_of_abc :
  hashlib.sha256_hexdigest (bytes_literal "abc")
  = "ba7816bf8f01cfea414140de5dae2223b00361a396177a9cb410ff61f20015ad".
Proof. by vm_compute. Qed.

Example sha512_of_abc :
  hashlib.sha512_hexdigest (bytes_literal "abc")
  = "ddaf35a193617abacc417349ae20413112e6fa4e89a97ea20a9eeee64b55d39a"
    +:+ "2192992a274fc1a836ba3c23a3feebbd454d4423643ce80e2a9ac94fa54ca49f".
Proof. by vm_compute. Qed.

Example sha256_of_119_bytes :
  hashlib.sha256_hexdigest (repeat Byte.x61 119)
  = "31eba51c313a5c08226adf18d4a359cfdfd8d2e816b13f4af952f7ea6584dcfb".
Proof. by vm_compute. Qed.

Example hmac_sha512_of_the_quick_brown_fox :
  hashlib.hex
    (hmac.new_sha512_digest (bytes_literal "key")
       (bytes_literal "The quick brown fox jumps over the lazy dog"))
  = "b42af09057bac1e2d41708e48a902e09b5ff7f12ab428a4fe86653c73dd248fb"
    +:+ "82f948a549f7b791a5b41915ee4d1ec3935357e4e2317250d0372afa2ebeeb3a".
Proof. by vm_compute. Qed.

(** ** Slices *)

Lemma py_slice_nonneg {A} (s : list A) (lo hi : Z) :
  (0 ≤ lo)%Z → (0 ≤ hi)%Z →
  py_slice s lo hi = take (Z.to_nat hi - Z.to_nat lo) (drop (Z.to_nat lo) s).
Proof.
  intros Hlo Hhi. unfold py_slice, py_index.
  rewrite !bool_decide_eq_false_2 by lia.
  destruct (decide (Z.of_nat (length s) ≤ lo)%Z) as [Hout|Hin].
  - rewrite !drop_ge by lia. by rewrite !take_nil.
  - rewrite (Z.min_l lo) by lia.
    destruct (decide (hi ≤ Z.of_nat (length s))%Z).
    + rewrite Z.min_l by lia. f_equal. lia.
    + rewrite Z.min_r by lia.
      rewrite !take_ge; [done|rewrite length_drop; lia..].
Qed.

Lemma py_slice_to_take {A} (s : list A) (hi : Z) :
  (0 ≤ hi)%Z → py_slice_to s hi = take (Z.to_nat hi) s.
Proof.
  intros Hhi. unfold py_slice_to. rewrite py_slice_nonneg by lia.
  simpl. f_equal. lia.
Qed.

Lemma py_slice_from_drop {A} (s : list A) (lo : Z) :
  (0 ≤ lo)%Z → py_slice_from s lo = drop (Z.to_nat lo) s.
Proof.
  intros Hlo. unfold py_slice_from. rewrite py_slice_nonneg by lia.
  apply take_ge. rewrite length_drop. lia.
Qed.

Lemma py_slice_middle {A} (before x after : list A) :
  py_slice (before ++ x ++ after) (len before) (len before + len x) = x.
Proof.
  unfold len. rewrite py_slice_nonneg by lia.
  rewrite Nat2Z.id, drop_app_length.
  replace (Z.to_nat _ - _) with (length x) by lia.
  by rewrite take_app_length.
Qed.

Lemma py_slice_middle_at {A} (before x after : list A) (lo hi : Z) :
  lo = len before → hi = (lo + len x)%Z →
  py_slice (before ++ x ++ after) lo hi = x.
Proof. intros -> ->. apply py_slice_middle. Qed.

Lemma length_py_slice_to {A} (s : list A) (hi : Z) :
  (0 ≤ hi ≤ len s)%Z → length (py_slice_to s hi) = Z.to_nat hi.
Proof.
  intros Hhi. unfold len in Hhi. rewrite py_slice_to_take by lia.
  rewrite length_take. lia.
Qed.

(** ** Running calls *)

(** Closes [¬ x ∈ [a; b; ...]] for constructors that differ. *)
Ltac not_listed :=
  let Hin := fresh "Hin" in
  intros Hin;
  repeat (apply elem_of_cons in Hin as [Hin|Hin]; [discriminate Hin|]);
  by apply elem_of_nil in Hin.

Arguments SHA2.digest : simpl never.
Arguments hashlib.sha256 : simpl never.
Arguments hashlib.sha512 : simpl never.
Arguments hashlib.sha256_hexdigest : simpl never.
Arguments hashlib.sha512_hexdigest : simpl never.
Arguments hmac.new_sha512_digest : simpl never.

Lemma entering_entering (ms1 ms2 : list method) (w : world) :
  entering ms2 (entering ms1 w) = entering (ms1 ++ ms2) w.
Proof. unfold entering. simpl. by rewrite app_assoc. Qed.

Lemma entering_advance (ms : list method) (n : nat) (w : world) :
  entering ms (advance n w) = advance n (entering ms w).
Proof. reflexivity. Qed.

Lemma draw_entering (ms : list method) (w : world) (skip n : nat) :
  draw (entering ms w) skip n = draw w skip n.
Proof. reflexivity. Qed.

Lemma length_draw (w : world) (skip n : nat) : length (draw w skip n) = n.
Proof. unfold draw. by rewrite length_map, length_seq. Qed.

(** ** The keystream cipher *)

Lemma keystream_loop_unfold (fuel : nat) (key nonce : bytes) (length : Z)
    (ks : bytes) (counter : Z) :
  EncryptionEngine.keystream_loop fuel key nonce length ks counter =
  if bool_decide (len ks < length)%Z then
    match fuel with
    | O => None
    | S fuel' =>
        EncryptionEngine.keystream_loop fuel' key nonce length
          (ks ++ hmac.new_sha512_digest key
                   (nonce ++ to_bytes_big 8 (Z.to_N counter)))
          (counter + 1)%Z
    end
  else Some ks.
Proof. by destruct fuel. Qed.

(** The loop ends within [fuel] turns once [64 * fuel] bytes cover what is
    still missing, and it ends with enough bytes. *)
Lemma keystream_loop_total (key nonce : bytes) (length : Z) (fuel : nat) :
  ∀ (ks : bytes) (counter : Z),
    (length - len ks ≤ 64 * Z.of_nat fuel)%Z →
    ∃ out, EncryptionEngine.keystream_loop fuel key nonce length ks counter
           = Some out
           ∧ (length ≤ len out)%Z.
Proof.
  induction fuel as [|fuel IH]; intros ks counter Hfuel;
    rewrite keystream_loop_unfold; case_bool_decide as Hlt.
  - lia.
  - exists ks. split; [done|lia].
  - apply IH. unfold len in *. rewrite length_app, length_hmac. lia.
  - exists ks. split; [done|lia].
Qed.

Lemma generate_keystream_returns (key nonce : bytes) (length : Z) (w : world) :
  EncryptionEngine._generate_keystream key nonce length w
  = (entering [generate_keystream_entered] w,
     Returned (EncryptionEngine.keystream key nonce length)).
Proof.
  unfold EncryptionEngine._generate_keystream, EncryptionEngine.keystream,
    bind, enter.
  destruct (keystream_loop_total key nonce length (Z.to_nat length) [] 0%Z)
    as (out & -> & _); [unfold len; simpl; lia|done].
Qed.

Lemma length_keystream (key nonce : bytes) (length : Z) :
  List.length (EncryptionEngine.keystream key nonce length) = Z.to_nat length.
Proof.
  unfold EncryptionEngine.keystream.
  destruct (decide (0 ≤ length)%Z).
  - destruct (keystream_loop_total key nonce length (Z.to_nat length) [] 0%Z)
      as (out & -> & Hout); [unfold len; simpl; lia|].
    rewrite length_py_slice_to; [done|lia].
  - rewrite keystream_loop_unfold.
    rewrite bool_decide_eq_false_2 by (unfold len; simpl; lia).
    unfold py_slice_to, py_slice. rewrite drop_nil, take_nil. simpl. lia.
Qed.

Lemma imap_xor_zip (data ks : bytes) :
  length data ≤ length ks →
  imap (fun i b => byte_xor b (getitem ks (Z.of_nat i))) data
  = zip_with byte_xor data ks.
Proof.
  revert ks. induction data as [|b data IH]; intros [|k ks] Hlen;
    simpl in *; try done; try lia.
  f_equal. rewrite <- IH by lia.
  apply imap_ext. intros i x _. simpl. unfold getitem.
  by rewrite !Nat2Z.id.
Qed.

Lemma zip_xor_involutive (data ks : bytes) :
  length data ≤ length ks →
  zip_with byte_xor (zip_with byte_xor data ks) ks = data.
Proof.
  revert ks. induction data as [|b data IH]; intros [|k ks] Hlen;
    simpl in *; try done; try lia.
  rewrite byte_xor_involutive. f_equal. apply IH. lia.
Qed.

Lemma length_zip_xor (data ks : bytes) :
  length data ≤ length ks → length (zip_with byte_xor data ks) = length data.
Proof. intros Hlen. rewrite length_zip_with. lia. Qed.

(** What [_aes_ctr_encrypt] returns: the data XOR the keystream of its
    length. *)
Lemma aes_ctr_encrypt_returns (data key nonce : bytes) (w : world) :
  EncryptionEngine._aes_ctr_encrypt data key nonce w
  = (entering [aes_ctr_encrypt_entered; generate_keystream_entered] w,
     Returned (zip_with byte_xor data
                 (EncryptionEngine.keystream key nonce (len data)))).
Proof.
  unfold EncryptionEngine._aes_ctr_encrypt, bind, enter.
  rewrite generate_keystream_returns, entering_entering. unfold ret.
  rewrite imap_xor_zip; [done|].
  rewrite length_keystream. unfold len. lia.
Qed.

Lemma aes_ctr_decrypt_returns (data key nonce : bytes) (w : world) :
  EncryptionEngine._aes_ctr_decrypt data key nonce w
  = (entering [aes_ctr_decrypt_entered; aes_ctr_encrypt_entered;
               generate_keystream_entered] w,
     Returned (zip_with byte_xor data
                 (EncryptionEngine.keystream key nonce (len data)))).
Proof.
  unfold EncryptionEngine._aes_ctr_decrypt, bind, enter.
  by rewrite aes_ctr_encrypt_returns, entering_entering.
Qed.

Lemma verify_hmac_returns (data key tag : bytes) (w : world) :
  EncryptionEngine._verify_hmac data key tag w
  = (entering [verify_hmac_entered; compute_hmac_entered] w,
     Returned (bool_decide (hmac.new_sha512_digest key data = tag))).
Proof.
  unfold EncryptionEngine._verify_hmac, EncryptionEngine._compute_hmac, bind,
    enter, ret.
  by rewrite entering_entering.
Qed.

(** What [decrypt] does, in one equation: three methods and a raise when the
    tag is not the keyed hash of the ciphertext, the XOR with the keystream
    otherwise. *)
Lemma decrypt_runs
    (ciphertext encryption_key authentication_key nonce hmac_tag : bytes)
    (w : world) :
  EncryptionEngine.decrypt ciphertext encryption_key authentication_key nonce
    hmac_tag w
  = if bool_decide
         (hmac.new_sha512_digest authentication_key ciphertext = hmac_tag)
    then (entering [decrypt_entered; verify_hmac_entered; compute_hmac_entered;
                    aes_ctr_decrypt_entered; aes_ctr_encrypt_entered;
                    generate_keystream_entered] w,
          Returned (zip_with byte_xor ciphertext
                      (EncryptionEngine.keystream encryption_key nonce
                         (len ciphertext))))
    else (entering [decrypt_entered; verify_hmac_entered; compute_hmac_entered] w,
          Raised AuthenticationFailure).
Proof.
  unfold EncryptionEngine.decrypt, bind, enter.
  rewrite verify_hmac_returns, entering_entering.
  case_bool_decide; simpl.
  - by rewrite aes_ctr_decrypt_returns, entering_entering.
  - done.
Qed.

Lemma encrypt_runs (plaintext encryption_key authentication_key : bytes)
    (w : world) :
  let nonce := draw w 0 16 in
  let ciphertext :=
    zip_with byte_xor plaintext
      (EncryptionEngine.keystream encryption_key nonce (len plaintext)) in
  EncryptionEngine.encrypt plaintext encryption_key authentication_key None w
  = (advance 16
       (entering [encrypt_entered; aes_ctr_encrypt_entered;
                  generate_keystream_entered; compute_hmac_entered] w),
     Returned (ciphertext, nonce,
               hmac.new_sha512_digest authentication_key ciphertext)).
Proof.
  unfold EncryptionEngine.encrypt, EncryptionEngine._compute_hmac, bind, enter,
    token_bytes, ret.
  rewrite aes_ctr_encrypt_returns. simpl.
  rewrite <- !entering_advance, !entering_entering. done.
Qed.

(** C2. [EncryptionEngine.decrypt] raises [AuthenticationFailure] exactly
    when the tag differs from the HMAC-SHA512 of the ciphertext under the
    authentication key; when it raises, it has entered [decrypt],
    [_verify_hmac] and [_compute_hmac] and nothing else: no method that
    computes keystream or XORs has run, and no random byte was drawn. *)
Theorem decrypt_authenticates_before_decrypting
    (ciphertext encryption_key authentication_key nonce hmac_tag : bytes)
    (w : world) :
  let call :=
    EncryptionEngine.decrypt ciphertext encryption_key authentication_key
      nonce hmac_tag in
  (result_of call w = Raised AuthenticationFailure
   ↔ hmac_tag ≠ hmac.new_sha512_digest authentication_key ciphertext)
  ∧ (result_of call w = Raised AuthenticationFailure →
     fst (call w)
     = entering [decrypt_entered; verify_hmac_entered; compute_hmac_entered] w
     ∧ Forall (fun m => ¬ computes_keystream_or_xor m) (entered_by call w)).
Proof.
  intros call. unfold result_of, entered_by. subst call.
  rewrite decrypt_runs. case_bool_decide as Htag; simpl.
  - split; [split; [done|intros Hne; by destruct Hne]|done].
  - split; [split; [intros _; by intros ->|done]|].
    intros _. split; [done|].
    rewrite drop_app_length.
    unfold computes_keystream_or_xor.
    repeat constructor; not_listed.
Qed.

(** ** Canary tokens *)

Arguments py_slice : simpl never.

Lemma py_slice_eq {A} (s : list A) (lo lo' hi hi' : Z) :
  lo = lo' → hi = hi' → py_slice s lo hi = py_slice s lo' hi'.
Proof. by intros -> ->. Qed.

Lemma range_3 : range 3 = [0; 1; 2]%Z.
Proof. reflexivity. Qed.

Lemma advance_advance (m n : nat) (w : world) :
  advance n (advance m w) = advance (m + n) w.
Proof. unfold advance. simpl. f_equal. lia. Qed.

Lemma draw_advance (m skip n : nat) (w : world) :
  draw (advance m w) skip n = draw w (m + skip) n.
Proof. unfold draw, advance. simpl. do 2 f_equal. lia. Qed.

Lemma three_tokens (w : world) :
  for_each (fun _ : Z => token_bytes 16) [0; 1; 2]%Z w
  = (advance 48 w, Returned [draw w 0 16; draw w 16 16; draw w 32 16]).
Proof.
  unfold for_each, bind, token_bytes, ret.
  rewrite !advance_advance, !draw_advance. reflexivity.
Qed.

Section Chunks.
Variables (data : bytes) (c : Z).
Hypothesis c_nonneg : (0 ≤ c)%Z.

Lemma chunk_at_0 :
  CanaryTokenManager.chunk_at data c 0 = take (Z.to_nat c) data.
Proof.
  unfold CanaryTokenManager.chunk_at.
  rewrite bool_decide_eq_false_2 by done.
  rewrite py_slice_nonneg by lia. simpl. f_equal. lia.
Qed.

Lemma chunk_at_1 :
  CanaryTokenManager.chunk_at data c 1
  = take (Z.to_nat c) (drop (Z.to_nat c) data).
Proof.
  unfold CanaryTokenManager.chunk_at.
  rewrite bool_decide_eq_false_2 by done.
  rewrite py_slice_nonneg by lia.
  replace (1 * c)%Z with c by lia. f_equal. lia.
Qed.

Lemma chunk_at_2 :
  CanaryTokenManager.chunk_at data c 2
  = drop (Z.to_nat c) (drop (Z.to_nat c) data).
Proof.
  unfold CanaryTokenManager.chunk_at.
  rewrite bool_decide_eq_true_2 by done.
  rewrite py_slice_from_drop by lia. rewrite drop_drop. f_equal. lia.
Qed.

Lemma chunks_rejoin :
  CanaryTokenManager.chunk_at data c 0
    ++ CanaryTokenManager.chunk_at data c 1
    ++ CanaryTokenManager.chunk_at data c 2
  = data.
Proof. by rewrite chunk_at_0, chunk_at_1, chunk_at_2, !take_drop. Qed.
End Chunks.

(** What [inject_tokens] returns: the three chunks of [data], each followed
    by the next 16 random bytes, and the hash of the 48 bytes drawn. *)
Lemma inject_tokens_runs (data : bytes) (w : world) :
  let c := (len data `div` 3)%Z in
  let t0 := draw w 0 16 in
  let t1 := draw w 16 16 in
  let t2 := draw w 32 16 in
  CanaryTokenManager.inject_tokens data w
  = (advance 48 (entering [inject_tokens_entered] w),
     Returned (CanaryTokenManager.chunk_at data c 0 ++ t0
                 ++ CanaryTokenManager.chunk_at data c 1 ++ t1
                 ++ CanaryTokenManager.chunk_at data c 2 ++ t2,
               hashlib.sha256 (concat [t0; t1; t2]))).
Proof.
  intros c t0 t1 t2.
  unfold CanaryTokenManager.inject_tokens, CanaryTokenManager.num_tokens,
    CanaryTokenManager.token_size, bind, enter.
  rewrite range_3, three_tokens. unfold ret. cbn [map fold_left].
  unfold getitem. cbn [Z.to_nat lookup_total list_lookup_total app].
  rewrite !draw_entering. fold c t0 t1 t2.
  by rewrite <- !app_assoc.
Qed.

(** What [verify_and_extract] does, in one equation. *)
Lemma verify_and_extract_runs (data_with_canaries verification : bytes)
    (original_length : Z) (w : world) :
  CanaryTokenManager.verify_and_extract data_with_canaries verification
    original_length w
  = (entering [verify_and_extract_entered] w,
     if bool_decide
          (verification
           = hashlib.sha256
               (concat (tokens_at_stride data_with_canaries original_length)))
     then Returned (concat (chunks_at_stride data_with_canaries original_length))
     else Raised TamperDetected).
Proof.
  unfold CanaryTokenManager.verify_and_extract,
    CanaryTokenManager.num_tokens, bind, enter.
  rewrite range_3. cbn [fold_left].
  unfold CanaryTokenManager.extract_step, CanaryTokenManager.num_tokens,
    CanaryTokenManager.token_size.
  rewrite !(bool_decide_eq_false_2 (_ = 3 - 1)%Z) by done.
  rewrite (bool_decide_eq_true_2 (2 = 3 - 1)%Z) by done.
  cbn [app]. unfold hmac.compare_digest.
  set (c := (original_length `div` 3)%Z).
  assert (Htokens :
    [py_slice data_with_canaries (0 + c) (0 + c + 16);
     py_slice data_with_canaries (0 + c + 16 + c) (0 + c + 16 + c + 16);
     py_slice data_with_canaries
       (0 + c + 16 + c + 16 + (original_length - c * (3 - 1)))
       (0 + c + 16 + c + 16 + (original_length - c * (3 - 1)) + 16)]
    = tokens_at_stride data_with_canaries original_length).
  { unfold tokens_at_stride. fold c.
    repeat (apply (f_equal2 cons); [apply py_slice_eq; lia|]). done. }
  assert (Hchunks :
    [py_slice data_with_canaries 0 (0 + c);
     py_slice data_with_canaries (0 + c + 16) (0 + c + 16 + c);
     py_slice data_with_canaries (0 + c + 16 + c + 16)
       (0 + c + 16 + c + 16 + (original_length - c * (3 - 1)))]
    = chunks_at_stride data_with_canaries original_length).
  { unfold chunks_at_stride. fold c.
    repeat (apply (f_equal2 cons); [apply py_slice_eq; lia|]). done. }
  rewrite Htokens, Hchunks.
  by case_bool_decide.
Qed.

(** Chunks and tokens are found again at the stride of an interleaving. *)
Lemma stride_of_interleaving (c0 t0 c1 t1 c2 t2 : bytes) (n : Z) :
  len c0 = (n `div` 3)%Z → len c1 = (n `div` 3)%Z →
  len c2 = (n - 2 * (n `div` 3))%Z →
  len t0 = 16%Z → len t1 = 16%Z → len t2 = 16%Z →
  tokens_at_stride (c0 ++ t0 ++ c1 ++ t1 ++ c2 ++ t2) n = [t0; t1; t2]
  ∧ chunks_at_stride (c0 ++ t0 ++ c1 ++ t1 ++ c2 ++ t2) n = [c0; c1; c2].
Proof.
  intros H0 H1 H2 G0 G1 G2.
  unfold tokens_at_stride, chunks_at_stride.
  set (l := c0 ++ t0 ++ c1 ++ t1 ++ c2 ++ t2).
  assert (S0 : l = [] ++ c0 ++ (t0 ++ c1 ++ t1 ++ c2 ++ t2)) by done.
  assert (S1 : l = c0 ++ t0 ++ (c1 ++ t1 ++ c2 ++ t2)) by done.
  assert (S2 : l = (c0 ++ t0) ++ c1 ++ (t1 ++ c2 ++ t2))
    by (subst l; by rewrite <- !app_assoc).
  assert (S3 : l = (c0 ++ t0 ++ c1) ++ t1 ++ (c2 ++ t2))
    by (subst l; by rewrite <- !app_assoc).
  assert (S4 : l = (c0 ++ t0 ++ c1 ++ t1) ++ c2 ++ t2)
    by (subst l; by rewrite <- !app_assoc).
  assert (S5 : l = (c0 ++ t0 ++ c1 ++ t1 ++ c2) ++ t2 ++ [])
    by (subst l; by rewrite <- !app_assoc, app_nil_r).
  clearbody l. unfold len in *.
  split; (apply (f_equal2 cons); [|apply (f_equal2 cons);
                                     [|apply (f_equal2 cons); [|done]]]).
  - rewrite S1. apply py_slice_middle_at; unfold len; lia.
  - rewrite S3. apply py_slice_middle_at; unfold len;
      rewrite ?length_app; lia.
  - rewrite S5. apply py_slice_middle_at; unfold len;
      rewrite ?length_app; lia.
  - rewrite S0. apply py_slice_middle_at; unfold len; simpl; lia.
  - rewrite S2. apply py_slice_middle_at; unfold len;
      rewrite ?length_app; lia.
  - rewrite S4. apply py_slice_middle_at; unfold len;
      rewrite ?length_app; lia.
Qed.

Lemma chunk_lengths (data : bytes) :
  let c := (len data `div` 3)%Z in
  len (CanaryTokenManager.chunk_at data c 0) = c
  ∧ len (CanaryTokenManager.chunk_at data c 1) = c
  ∧ len (CanaryTokenManager.chunk_at data c 2) = (len data - 2 * c)%Z.
Proof.
  intros c.
  assert (0 ≤ c ∧ 3 * c ≤ len data)%Z as [Hc0 Hc3].
  { subst c. unfold len. split.
    - apply Z.div_pos; lia.
    - apply Z.mul_div_le. lia. }
  rewrite chunk_at_0, chunk_at_1, chunk_at_2 by done.
  unfold len in *. rewrite !length_take, !length_drop. lia.
Qed.

(** Extraction undoes injection, whatever the random tokens were. *)
Lemma extract_inject (data : bytes) (w w2 : world) :
  let c := (len data `div` 3)%Z in
  let marked :=
    CanaryTokenManager.chunk_at data c 0 ++ draw w 0 16
      ++ CanaryTokenManager.chunk_at data c 1 ++ draw w 16 16
      ++ CanaryTokenManager.chunk_at data c 2 ++ draw w 32 16 in
  CanaryTokenManager.verify_and_extract marked
    (hashlib.sha256 (concat [draw w 0 16; draw w 16 16; draw w 32 16]))
    (len data) w2
  = (entering [verify_and_extract_entered] w2, Returned data).
Proof.
  intros c marked. subst marked. rewrite verify_and_extract_runs.
  destruct (chunk_lengths data) as (L0 & L1 & L2). fold c in L0, L1, L2.
  destruct (stride_of_interleaving
              (CanaryTokenManager.chunk_at data c 0) (draw w 0 16)
              (CanaryTokenManager.chunk_at data c 1) (draw w 16 16)
              (CanaryTokenManager.chunk_at data c 2) (draw w 32 16)
              (len data)) as [-> ->];
    try done; try (unfold len; by rewrite length_draw).
  rewrite bool_decide_eq_true_2 by done.
  cbn [concat]. rewrite app_nil_r, chunks_rejoin; [done|].
  subst c. unfold len. apply Z.div_pos; lia.
Qed.

(** C9. Whatever [data] and whatever the random tokens: if [inject_tokens]
    returns [(marked, verification)] then [verify_and_extract] of these with
    [len(data)] returns [data]; and for any input, [verify_and_extract]
    raises [TamperDetected] exactly when the SHA-256 of the token bytes read
    at the fixed stride differs from the verification value supplied. *)
Theorem canary_round_trip_and_detection (data : bytes) (w : world) :
  (∃ w' marked verification,
     CanaryTokenManager.inject_tokens data w
     = (w', Returned (marked, verification))
     ∧ ∀ w2,
         result_of (CanaryTokenManager.verify_and_extract marked verification
                      (len data)) w2
         = Returned data)
  ∧ ∀ (marked verification : bytes) (original_length : Z) (w2 : world),
      result_of (CanaryTokenManager.verify_and_extract marked verification
                   original_length) w2
      = Raised TamperDetected
      ↔ hashlib.sha256 (concat (tokens_at_stride marked original_length))
        ≠ verification.
Proof.
  split.
  - eexists _, _, _. split; [apply inject_tokens_runs|].
    intros w2. unfold result_of. by rewrite extract_inject.
  - intros marked verification original_length w2.
    unfold result_of. rewrite verify_and_extract_runs. simpl.
    case_bool_decide as Hv.
    + split; [done|]. intros Hne. by destruct Hne.
    + split; [|done]. intros _ Heq. by apply Hv.
Qed.

(** ** Fragment binding and commitment *)

Lemma create_fragment_b_runs (fragment_a ic_key phone_key : bytes) (w : world) :
  DataFragmenter.create_fragment_b fragment_a ic_key phone_key w
  = (entering [create_fragment_b_entered] w,
     Returned (binding_of_spec fragment_a ic_key phone_key)).
Proof.
  unfold DataFragmenter.create_fragment_b, DataFragmenter.fragment_b_size,
    binding_of_spec, bind, enter, ret.
  by rewrite py_slice_to_take.
Qed.

Lemma length_binding (fragment_a key_a key_b : bytes) :
  length (binding_of_spec fragment_a key_a key_b) = 32.
Proof. unfold binding_of_spec. rewrite length_take, length_sha512. lia. Qed.

Lemma compute_merkle_root_runs (fragment_a fragment_b : bytes) (w : world) :
  DataFragmenter.compute_merkle_root fragment_a fragment_b w
  = (entering [compute_merkle_root_entered] w,
     Returned (commitment_of_spec fragment_a fragment_b)).
Proof. reflexivity. Qed.

Lemma length_commitment (fragment_a fragment_b : bytes) :
  String.length (commitment_of_spec fragment_a fragment_b) = 128.
Proof. unfold commitment_of_spec. by rewrite length_hex, length_sha512. Qed.

(** C7. [create_fragment_b] returns the first 32 bytes of
    SHA-512(SHA-512(fragment_a) ‖ SHA-512(ic_key) ‖ SHA-512(phone_key)): the
    same value in every world, always exactly 32 bytes long whatever the
    sizes of the inputs; and [verify_fragment_binding] returns [True]
    exactly when the fragment B supplied equals that value. *)
Theorem fragment_b_is_the_bound_digest
    (fragment_a ic_key phone_key : bytes) (w : world) :
  result_of (DataFragmenter.create_fragment_b fragment_a ic_key phone_key) w
  = Returned (binding_of_spec fragment_a ic_key phone_key)
  ∧ length (binding_of_spec fragment_a ic_key phone_key) = 32
  ∧ ∀ fragment_b : bytes,
      ∃ verdict : bool,
        result_of (DataFragmenter.verify_fragment_binding fragment_a
                     fragment_b ic_key phone_key) w
        = Returned verdict
        ∧ (verdict = true
           ↔ fragment_b = binding_of_spec fragment_a ic_key phone_key).
Proof.
  unfold result_of. rewrite create_fragment_b_runs.
  split; [done|]. split; [apply length_binding|].
  intros fragment_b.
  unfold DataFragmenter.verify_fragment_binding, bind, enter, ret.
  rewrite create_fragment_b_runs. simpl.
  eexists. split; [done|]. apply bool_decide_eq_true.
Qed.

(** ** Key derivation *)

Lemma hkdf_derive_runs (input_material salt info : bytes) (w : world) :
  ECCHardwareManager._hkdf_derive input_material salt info w
  = (entering [hkdf_derive_entered] w,
     Returned (derived_key_of_spec input_material salt info)).
Proof.
  unfold ECCHardwareManager._hkdf_derive, ECCHardwareManager.key_size,
    derived_key_of_spec, bind, enter, ret.
  by rewrite py_slice_to_take.
Qed.

Lemma length_derived_key (seed salt context : bytes) :
  length (derived_key_of_spec seed salt context) = 32.
Proof. unfold derived_key_of_spec. rewrite length_take, length_sha256. lia. Qed.

Lemma derive_keys_from_public_runs
    (card_public_key phone_public_key : bytes) (did : string) (w : world) :
  ECCHardwareManager.derive_keys_from_public card_public_key phone_public_key
    did w
  = (entering [derive_keys_from_public_entered; hkdf_derive_entered;
               hkdf_derive_entered] w,
     Returned
       (derived_key_of_spec card_public_key ECCHardwareManager.ic_salt
          (encode_utf8 did),
        derived_key_of_spec phone_public_key ECCHardwareManager.phone_salt
          (encode_utf8 did))).
Proof.
  unfold ECCHardwareManager.derive_keys_from_public, bind, enter, ret.
  by rewrite !hkdf_derive_runs, !entering_entering.
Qed.

(** C8. [_hkdf_derive] returns the first 32 bytes of
    SHA-256(SHA-256(salt ‖ input_material) ‖ info ‖ 0x01), the same in every
    world and always 32 bytes long; [derive_keys_from_public] derives the
    two keys of a pair under the two constant salts, which differ. *)
Theorem derived_key_is_extract_then_expand
    (input_material salt info : bytes) (w : world) :
  result_of (ECCHardwareManager._hkdf_derive input_material salt info) w
  = Returned (derived_key_of_spec input_material salt info)
  ∧ length (derived_key_of_spec input_material salt info) = 32
  ∧ (∀ (card_public_key phone_public_key : bytes) (did : string),
       result_of (ECCHardwareManager.derive_keys_from_public card_public_key
                    phone_public_key did) w
       = Returned
           (derived_key_of_spec card_public_key ECCHardwareManager.ic_salt
              (encode_utf8 did),
            derived_key_of_spec phone_public_key ECCHardwareManager.phone_salt
              (encode_utf8 did)))
  ∧ ECCHardwareManager.ic_salt ≠ ECCHardwareManager.phone_salt.
Proof.
  unfold result_of. rewrite hkdf_derive_runs.
  split; [done|]. split; [apply length_derived_key|]. split; [|done].
  intros card_public_key phone_public_key did.
  by rewrite derive_keys_from_public_runs.
Qed.


(** C5 fails as stated: with an empty seed [_hkdf_derive] returns a key. *)
Lemma empty_seed_yields_a_key :
  ∃ key : bytes,
    result_of (ECCHardwareManager._hkdf_derive [] ECCHardwareManager.ic_salt
                 (encode_utf8 "did:zetrix:mykad-123")) Sample.world0
    = Returned key
    ∧ hashlib.hex key
      = "af8602559b09ed6dd44aaa59464ae3d5bf8f1be89c11979bf18fd1382ce39072"
    ∧ result_of (ECCHardwareManager._hkdf_derive [] ECCHardwareManager.ic_salt
                   (encode_utf8 "did:zetrix:mykad-123")) Sample.world0
      ≠ Raised InvalidSeedMaterial.
Proof.
  exists (derived_key_of_spec [] ECCHardwareManager.ic_salt
            (encode_utf8 "did:zetrix:mykad-123")).
  unfold result_of. rewrite hkdf_derive_runs.
  split; [done|]. split; [by vm_compute|done].
Qed.

(** C5, amended. The key-derivation operation has no check on its seed: for
    an empty seed it returns the 32-byte key
    SHA-256(SHA-256(salt) ‖ info ‖ 0x01)[:32], and for no input at all does
    [_hkdf_derive] or [derive_keys_from_public] raise
    [InvalidSeedMaterial]. *)
Theorem empty_seed_is_derived_like_any_other (salt info : bytes) (w : world) :
  result_of (ECCHardwareManager._hkdf_derive [] salt info) w
  = Returned
      (take 32 (hashlib.sha256 (hashlib.sha256 salt ++ info ++ [Byte.x01])))
  ∧ length (take 32 (hashlib.sha256 (hashlib.sha256 salt ++ info ++ [Byte.x01])))
    = 32
  ∧ (∀ input_material : bytes,
       result_of (ECCHardwareManager._hkdf_derive input_material salt info) w
       ≠ Raised InvalidSeedMaterial)
  ∧ (∀ (card_public_key phone_public_key : bytes) (did : string),
       result_of (ECCHardwareManager.derive_keys_from_public card_public_key
                    phone_public_key did) w
       ≠ Raised InvalidSeedMaterial).
Proof.
  unfold result_of. rewrite hkdf_derive_runs.
  pose proof (length_derived_key [] salt info) as Hlen.
  unfold derived_key_of_spec in *. rewrite app_nil_r in *.
  split; [done|]. split; [done|]. split.
  - intros input_material. by rewrite hkdf_derive_runs.
  - intros card_public_key phone_public_key did.
    by rewrite derive_keys_from_public_runs.
Qed.

(** ** The commitment *)

Lemma verify_merkle_root_runs (fragment_a fragment_b : bytes)
    (expected_root : string) (w : world) :
  DataFragmenter.verify_merkle_root fragment_a fragment_b expected_root w
  = (entering [verify_merkle_root_entered; compute_merkle_root_entered] w,
     Returned
       (bool_decide (commitment_of_spec fragment_a fragment_b = expected_root))).
Proof.
  unfold DataFragmenter.verify_merkle_root, bind, enter, ret.
  by rewrite compute_merkle_root_runs, entering_entering.
Qed.

(** Equal commitments after a swap lead back to equal fragments or to a
    SHA-512 collision along the way. *)
Lemma equal_commitments_after_swap (a b : bytes) :
  commitment_of_spec b a = commitment_of_spec a b →
  a = b
  ∨ sha512_collision a b
  ∨ sha512_collision (hashlib.sha512 a ++ hashlib.sha512 b)
                     (hashlib.sha512 b ++ hashlib.sha512 a)
  ∨ sha512_collision
      (hashlib.sha512 (hashlib.sha512 a ++ hashlib.sha512 b))
      (hashlib.sha512 (hashlib.sha512 b ++ hashlib.sha512 a)).
Proof.
  unfold commitment_of_spec, sha512_collision. intros Heq%hex_inj.
  set (ha := hashlib.sha512 a) in *. set (hb := hashlib.sha512 b) in *.
  destruct (decide (hashlib.sha512 (ha ++ hb) = hashlib.sha512 (hb ++ ha)))
    as [Hmid|Hmid]; [|by right; right; right].
  destruct (decide (ha ++ hb = hb ++ ha)) as [Hcat|Hcat];
    [|by right; right; left].
  apply app_inj_1 in Hcat as [Hab _];
    [|subst ha hb; by rewrite !length_sha512].
  destruct (decide (a = b)); [by left|by right; left].
Qed.

(** C6 fails as stated: for two equal fragments the swap changes nothing. *)
Lemma swap_of_equal_fragments_changes_nothing :
  let a := bytes_literal "fragment" in
  let b := bytes_literal "fragment" in
  result_of (DataFragmenter.compute_merkle_root b a) Sample.world0
  = result_of (DataFragmenter.compute_merkle_root a b) Sample.world0.
Proof. reflexivity. Qed.

(** C6, amended. [verify_merkle_root] returns [True] exactly when the
    candidate equals the commitment, which is the 128 hexadecimal characters
    of SHA-512(SHA-512(SHA-512(A) ‖ SHA-512(B))).  Swapping two equal
    fragments leaves the commitment unchanged; swapping two different ones
    can leave it unchanged only through a SHA-512 collision: between the
    fragments, between the two concatenations of their digests, or between
    the digests of these. *)
Theorem commitment_is_verified_and_ordered
    (fragment_a fragment_b : bytes) (w : world) :
  result_of (DataFragmenter.compute_merkle_root fragment_a fragment_b) w
  = Returned (commitment_of_spec fragment_a fragment_b)
  ∧ String.length (commitment_of_spec fragment_a fragment_b) = 128
  ∧ (∀ candidate : string,
       ∃ verdict : bool,
         result_of (DataFragmenter.verify_merkle_root fragment_a fragment_b
                      candidate) w
         = Returned verdict
         ∧ (verdict = true
            ↔ candidate = commitment_of_spec fragment_a fragment_b))
  ∧ (fragment_a = fragment_b →
     commitment_of_spec fragment_b fragment_a
     = commitment_of_spec fragment_a fragment_b)
  ∧ (commitment_of_spec fragment_b fragment_a
     = commitment_of_spec fragment_a fragment_b →
     fragment_a = fragment_b
     ∨ sha512_collision fragment_a fragment_b
     ∨ sha512_collision
         (hashlib.sha512 fragment_a ++ hashlib.sha512 fragment_b)
         (hashlib.sha512 fragment_b ++ hashlib.sha512 fragment_a)
     ∨ sha512_collision
         (hashlib.sha512 (hashlib.sha512 fragment_a ++ hashlib.sha512 fragment_b))
         (hashlib.sha512 (hashlib.sha512 fragment_b ++ hashlib.sha512 fragment_a))).
Proof.
  split; [done|]. split; [apply length_commitment|]. split; [|split].
  - intros candidate. unfold result_of. rewrite verify_merkle_root_runs.
    eexists. split; [done|]. rewrite bool_decide_eq_true. naive_solver.
  - by intros ->.
  - apply equal_commitments_after_swap.
Qed.

(** ** Key validation and the fingerprint gate *)

Lemma validate_accepts (ic_key phone_key : bytes) (w : world) :
  passes_validation ic_key phone_key →
  SecurityCore._validate_hardware_keys ic_key phone_key w
  = (entering [validate_hardware_keys_entered] w, Returned tt).
Proof.
  intros (Hic & Hphone & Hic0 & Hphone0).
  unfold SecurityCore._validate_hardware_keys, bind, enter.
  rewrite !(bool_decide_eq_false_2 (_ ≠ _)) by (intros Hne; by apply Hne).
  by rewrite !bool_decide_eq_false_2 by done.
Qed.

Lemma validate_rejects (ic_key phone_key : bytes) :
  ¬ passes_validation ic_key phone_key →
  ∃ why, ∀ w : world,
    SecurityCore._validate_hardware_keys ic_key phone_key w
    = (entering [validate_hardware_keys_entered] w,
       Raised (InvalidKeyMaterial why)).
Proof.
  intros Hbad.
  unfold SecurityCore._validate_hardware_keys, bind, enter.
  repeat (case_bool_decide; [by eexists|]).
  destruct Hbad. unfold passes_validation.
  repeat split; try done; by apply dec_stable.
Qed.

Lemma hex_prefix (n : nat) (bs : bytes) :
  String.string_of_list_ascii
    (take (2 * n) (String.list_ascii_of_string (hashlib.hex bs)))
  = hashlib.hex (take n bs).
Proof.
  revert bs. induction n as [|n IH]; intros [|b bs]; try done.
  replace (2 * S n) with (S (S (2 * n))) by lia. simpl.
  by rewrite <- IH.
Qed.

Lemma fingerprint_is_hex_of_8_bytes (ic_key phone_key : bytes) :
  AdvancedFragmentation.generate_key_fingerprint ic_key phone_key
  = hashlib.hex (take 8 (hashlib.sha256 (ic_key ++ phone_key))).
Proof.
  unfold AdvancedFragmentation.generate_key_fingerprint, py_str_slice_to,
    hashlib.sha256_hexdigest.
  rewrite py_slice_to_take by lia. apply (hex_prefix 8).
Qed.

Lemma length_fingerprint (ic_key phone_key : bytes) :
  String.length (AdvancedFragmentation.generate_key_fingerprint ic_key phone_key)
  = 16.
Proof.
  rewrite fingerprint_is_hex_of_8_bytes, length_hex, length_take,
    length_sha256. lia.
Qed.

(** [unprotect_data] up to the fingerprint gate. *)
Lemma unprotect_data_runs {record : Type}
    (imports : data_fragmentation_advanced record)
    (fragment_a fragment_b ic_key phone_key : bytes)
    (metadata : gmap string value) (skip_time_lock : bool) (w : world) :
  passes_validation ic_key phone_key →
  SecurityCore.unprotect_data imports fragment_a fragment_b ic_key phone_key
    metadata skip_time_lock w
  = let gate :=
      entering [unprotect_data_entered; validate_hardware_keys_entered;
                generate_key_fingerprint_entered] w in
    if bool_decide
         (metadata !! "key_fingerprint"
          = Some (VStr (generate_key_fingerprint imports ic_key phone_key)))
    then
      (do data <-
         reconstruct_data_advanced imports fragment_a fragment_b ic_key
           phone_key metadata skip_time_lock;
       ret data) gate
    else (gate, Raised FingerprintMismatch).
Proof.
  intros Hvalid.
  unfold SecurityCore.unprotect_data. unfold bind at 1, enter at 1.
  unfold bind at 1. rewrite validate_accepts by done.
  unfold bind at 1, enter at 1. rewrite !entering_entering. cbn [app].
  by case_bool_decide; case_bool_decide.
Qed.

(** C3 fails as stated: with a key of the wrong length the fingerprint
    differs from the (absent) stored one, and what [unprotect_data] raises
    is [InvalidKeyMaterial]. *)
Lemma mismatch_with_invalid_key_is_not_reported :
  let metadata : gmap string value := ∅ in
  metadata !! "key_fingerprint"
  ≠ Some (VStr (generate_key_fingerprint SamplePipeline.imports []
                  Sample.key_22))
  ∧ result_of (SecurityCore.unprotect_data SamplePipeline.imports [] []
                 [] Sample.key_22 metadata false) Sample.world0
    = Raised (InvalidKeyMaterial (IcKeyLength 0)).
Proof. split; [done|reflexivity]. Qed.

(** [protect_data] up to the call of the imported pipeline. *)
Lemma protect_data_runs {record : Type}
    (imports : data_fragmentation_advanced record) (data : record)
    (ic_key phone_key : bytes) (enable_anti_tampering enable_time_lock : bool)
    (time_lock_duration : Z) (w : world) :
  passes_validation ic_key phone_key →
  SecurityCore.protect_data imports data ic_key phone_key
    enable_anti_tampering enable_time_lock time_lock_duration w
  = (do '(fragment_a, fragment_b, merkle_root, metadata) <-
       split_into_fragments_advanced imports data ic_key phone_key
         enable_anti_tampering enable_time_lock time_lock_duration;
     do timestamp <- now_isoformat;
     ret (fragment_a, fragment_b, merkle_root,
          dict_update metadata
            [("security_core_version", VStr SecurityCore.version);
             ("key_fingerprint",
              VStr (generate_key_fingerprint imports ic_key phone_key));
             ("protection_timestamp", VStr timestamp);
             ("compliance_standards", VStrList SecurityCore.compliance)]))
      (entering [protect_data_entered; validate_hardware_keys_entered;
                 generate_key_fingerprint_entered] w).
Proof.
  intros Hvalid.
  unfold SecurityCore.protect_data. unfold bind at 1, enter at 1.
  unfold bind at 1. rewrite validate_accepts by done.
  unfold bind at 1, enter at 1. by rewrite !entering_entering.
Qed.

(** Keys that fail validation stop both operations at once. *)
Lemma invalid_keys_stop_both_operations {record : Type}
    (imports : data_fragmentation_advanced record) (data : record)
    (fragment_a fragment_b ic_key phone_key : bytes)
    (metadata : gmap string value)
    (enable_anti_tampering enable_time_lock skip_time_lock : bool)
    (time_lock_duration : Z) (w : world) :
  ¬ passes_validation ic_key phone_key →
  ∃ why,
    SecurityCore.protect_data imports data ic_key phone_key
      enable_anti_tampering enable_time_lock time_lock_duration w
    = (entering [protect_data_entered; validate_hardware_keys_entered] w,
       Raised (InvalidKeyMaterial why))
    ∧ SecurityCore.unprotect_data imports fragment_a fragment_b ic_key
        phone_key metadata skip_time_lock w
      = (entering [unprotect_data_entered; validate_hardware_keys_entered] w,
         Raised (InvalidKeyMaterial why)).
Proof.
  intros Hbad.
  destruct (validate_rejects ic_key phone_key Hbad) as [why Hraise].
  exists why.
  unfold SecurityCore.protect_data, SecurityCore.unprotect_data.
  unfold bind at 1, enter at 1. unfold bind at 1. rewrite Hraise.
  unfold bind at 1, enter at 1. unfold bind at 1. rewrite Hraise.
  by rewrite !entering_entering.
Qed.

(** C3, amended. For every input to [unprotect_data] whose keys pass key
    validation and whose recomputed fingerprint differs from
    [metadata.get("key_fingerprint")], the call raises
    [FingerprintMismatch] having entered nothing but [unprotect_data],
    [_validate_hardware_keys] and [generate_key_fingerprint]: whatever the
    imported pipeline is, no decryption is attempted.  The fingerprint of
    [ECCHardwareManager] is, in every world, the first 16 hexadecimal
    characters of SHA-256(ic_key ‖ phone_key), that is the hexadecimal form
    of its first 8 bytes. *)
Theorem fingerprint_mismatch_stops_unprotect {record : Type}
    (imports : data_fragmentation_advanced record)
    (fragment_a fragment_b ic_key phone_key : bytes)
    (metadata : gmap string value) (skip_time_lock : bool) (w : world) :
  passes_validation ic_key phone_key →
  metadata !! "key_fingerprint"
  ≠ Some (VStr (generate_key_fingerprint imports ic_key phone_key)) →
  let call :=
    SecurityCore.unprotect_data imports fragment_a fragment_b ic_key
      phone_key metadata skip_time_lock in
  call w
  = (entering [unprotect_data_entered; validate_hardware_keys_entered;
               generate_key_fingerprint_entered] w,
     Raised FingerprintMismatch)
  ∧ Forall (fun m => ¬ attempts_decryption m) (entered_by call w)
  ∧ result_of (ECCHardwareManager.generate_key_fingerprint ic_key phone_key) w
    = Returned
        (py_str_slice_to (hashlib.sha256_hexdigest (ic_key ++ phone_key)) 16)
  ∧ py_str_slice_to (hashlib.sha256_hexdigest (ic_key ++ phone_key)) 16
    = hashlib.hex (take 8 (hashlib.sha256 (ic_key ++ phone_key)))
  ∧ String.length
      (py_str_slice_to (hashlib.sha256_hexdigest (ic_key ++ phone_key)) 16)
    = 16.
Proof.
  intros Hvalid Hmismatch call. subst call.
  unfold entered_by. rewrite unprotect_data_runs by done. cbn zeta.
  rewrite bool_decide_eq_false_2 by done.
  split; [done|]. split.
  - cbn [fst trace entering]. rewrite drop_app_length.
    unfold attempts_decryption. repeat constructor; not_listed.
  - split; [done|]. split.
    + apply fingerprint_is_hex_of_8_bytes.
    + apply length_fingerprint.
Qed.

Lemma sample_keys_pass_validation :
  passes_validation Sample.key_01 Sample.key_01
  ∧ passes_validation Sample.key_11 Sample.key_22
  ∧ passes_validation Sample.key_11 Sample.key_33.
Proof. by repeat split. Qed.

(** ** The nonce and the tag *)

Lemma byte_xor_cancel_l (b k1 k2 : byte) :
  byte_xor b k1 = byte_xor b k2 → k1 = k2.
Proof.
  unfold byte_xor. intros Heq%(f_equal Byte.to_N).
  rewrite !to_N_byte_of_N in Heq.
  pose proof (Byte.to_N_bounded b). pose proof (Byte.to_N_bounded k1).
  pose proof (Byte.to_N_bounded k2).
  rewrite !N.mod_small in Heq by (apply (lxor_below _ _ 8); simpl; lia).
  apply (f_equal (N.lxor (Byte.to_N b))) in Heq.
  rewrite <- !N.lxor_assoc, N.lxor_nilpotent, !N.lxor_0_l in Heq.
  apply (f_equal Byte.of_N) in Heq. rewrite !Byte.of_to_N in Heq.
  by injection Heq.
Qed.

Lemma zip_xor_inj (data ks1 ks2 : bytes) :
  length ks1 = length data → length ks2 = length data →
  zip_with byte_xor data ks1 = zip_with byte_xor data ks2 → ks1 = ks2.
Proof.
  revert ks1 ks2.
  induction data as [|b data IH]; intros [|k1 ks1] [|k2 ks2] H1 H2 Heq;
    simpl in *; try done.
  injection Heq as Hhead Htail.
  f_equal; [by eapply byte_xor_cancel_l|apply IH; by try lia].
Qed.

(** C10 fails as stated: for the empty ciphertext two different nonces give
    the same (empty) plaintext. *)
Lemma empty_ciphertext_ignores_the_nonce :
  let tag := hmac.new_sha512_digest Sample.key_22 [] in
  Sample.nonce_a ≠ Sample.nonce_b
  ∧ result_of (EncryptionEngine.decrypt [] Sample.key_11 Sample.key_22
                 Sample.nonce_a tag) Sample.world0
    = Returned []
  ∧ result_of (EncryptionEngine.decrypt [] Sample.key_11 Sample.key_22
                 Sample.nonce_b tag) Sample.world0
    = Returned [].
Proof.
  intros tag. split; [done|].
  unfold result_of. rewrite !decrypt_runs.
  by rewrite bool_decide_eq_true_2 by done.
Qed.

(** C10, amended. Whether [decrypt] raises [AuthenticationFailure] does not
    depend on the nonce.  With a tag that authenticates the ciphertext,
    [decrypt] returns under any nonce the XOR of the ciphertext with the
    keystream of that nonce; the plaintexts under two nonces differ exactly
    when the two keystreams differ on the length of the ciphertext. *)
Theorem nonce_is_not_authenticated
    (ciphertext encryption_key authentication_key hmac_tag nonce1 nonce2 : bytes)
    (w1 w2 : world) :
  let plain nonce w :=
    result_of (EncryptionEngine.decrypt ciphertext encryption_key
                 authentication_key nonce hmac_tag) w in
  let keystream nonce :=
    EncryptionEngine.keystream encryption_key nonce (len ciphertext) in
  (plain nonce1 w1 = Raised AuthenticationFailure
   ↔ plain nonce2 w2 = Raised AuthenticationFailure)
  ∧ (hmac_tag = hmac.new_sha512_digest authentication_key ciphertext →
     plain nonce1 w1 = Returned (zip_with byte_xor ciphertext (keystream nonce1))
     ∧ plain nonce2 w2 = Returned (zip_with byte_xor ciphertext (keystream nonce2))
     ∧ (plain nonce1 w1 ≠ plain nonce2 w2 ↔ keystream nonce1 ≠ keystream nonce2)).
Proof.
  intros plain keystream. subst plain keystream. cbn beta.
  unfold result_of. rewrite !decrypt_runs.
  case_bool_decide as Htag; simpl.
  - split; [done|]. intros _. split; [done|]. split; [done|].
    split.
    + intros Hne Heq. apply Hne. by rewrite Heq.
    + intros Hne Heq. apply Hne. injection Heq as Heq.
      apply (zip_xor_inj ciphertext); [| |done];
        rewrite length_keystream; unfold len; lia.
  - split; [done|]. intros ->. by destruct Htag.
Qed.

(** ** The round trip of the modelled pipeline *)

Section RoundTrip.
Context {record : Type} (format : AdvancedFragmentation.codec record)
        (keys : AdvancedFragmentation.key_convention).
Variables (ic_key phone_key : bytes).

Let ek := AdvancedFragmentation.encryption_key_of keys ic_key phone_key.
Let ak := AdvancedFragmentation.authentication_key_of keys ic_key phone_key.

(** What the modelled [split_into_fragments_advanced] returns. *)
Lemma split_runs (data : record)
    (enable_anti_tampering enable_time_lock : bool) (time_lock_duration : Z)
    (w : world) :
  ∃ (w' : world) (marked verification nonce : bytes)
    (metadata : gmap string value),
    AdvancedFragmentation.split_into_fragments_advanced format keys data
      ic_key phone_key enable_anti_tampering enable_time_lock
      time_lock_duration w
    = (w',
       Returned
         (fragment_a_of_spec ek ak nonce marked,
          binding_of_spec (fragment_a_of_spec ek ak nonce marked)
            ic_key phone_key,
          commitment_of_spec (fragment_a_of_spec ek ak nonce marked)
            (binding_of_spec (fragment_a_of_spec ek ak nonce marked)
               ic_key phone_key),
          metadata))
    ∧ length nonce = 16
    ∧ metadata !! "canary_verification" = Some (VBytes verification)
    ∧ metadata !! "original_size"
      = Some (VInt (len (AdvancedFragmentation.serialize format data)))
    ∧ ∀ w2 : world,
        CanaryTokenManager.verify_and_extract marked verification
          (len (AdvancedFragmentation.serialize format data)) w2
        = (entering [verify_and_extract_entered] w2,
           Returned (AdvancedFragmentation.serialize format data)).
Proof.
  unfold AdvancedFragmentation.split_into_fragments_advanced.
  unfold bind at 1, enter at 1. unfold bind at 1, enter at 1.
  unfold bind at 1. rewrite inject_tokens_runs.
  unfold bind at 1. rewrite encrypt_runs. cbn zeta.
  unfold bind at 1. rewrite create_fragment_b_runs.
  unfold bind at 1. rewrite compute_merkle_root_runs.
  unfold bind at 1, now_isoformat at 1. unfold ret.
  eexists _, _, _, _, _. split; [reflexivity|].
  split; [apply length_draw|]. split; [done|]. split; [done|].
  intros w2. apply extract_inject.
Qed.

(** The modelled [reconstruct_data_advanced] on a fragment A of the shape
    [split_into_fragments_advanced] builds. *)
Lemma reconstruct_runs (fragment_b nonce marked verification plain : bytes)
    (data : record) (metadata : gmap string value) (original_size : Z)
    (skip_time_lock : bool) (w : world) :
  length nonce = 16 →
  metadata !! "canary_verification" = Some (VBytes verification) →
  metadata !! "original_size" = Some (VInt original_size) →
  (∀ w2 : world,
     CanaryTokenManager.verify_and_extract marked verification
       original_size w2
     = (entering [verify_and_extract_entered] w2, Returned plain)) →
  AdvancedFragmentation.deserialize format plain = Some data →
  result_of
    (AdvancedFragmentation.reconstruct_data_advanced format keys
       (fragment_a_of_spec ek ak nonce marked) fragment_b ic_key phone_key
       metadata skip_time_lock) w
  = Returned data.
Proof.
  intros Hnonce Hverification Hsize Hextract Hparse.
  unfold fragment_a_of_spec.
  set (ks := EncryptionEngine.keystream ek nonce (len marked)).
  set (ct := zip_with byte_xor marked ks).
  set (tag := hmac.new_sha512_digest ak ct).
  assert (Hks : length marked ≤ length ks).
  { subst ks. rewrite length_keystream. unfold len. lia. }
  assert (Hct : len ct = len marked).
  { unfold len. subst ct. by rewrite length_zip_xor. }
  unfold result_of, AdvancedFragmentation.reconstruct_data_advanced,
    EncryptionEngine.nonce_size, EncryptionEngine.hmac_size.
  assert (py_slice_to (nonce ++ tag ++ ct) 16 = nonce) as ->.
  { apply (py_slice_middle_at [] nonce (tag ++ ct)); unfold len; simpl; lia. }
  assert (py_slice (nonce ++ tag ++ ct) 16 (16 + 64) = tag) as ->.
  { apply py_slice_middle_at; unfold len; subst tag;
      rewrite ?length_hmac; lia. }
  assert (py_slice_from (nonce ++ tag ++ ct) (16 + 64) = ct) as ->.
  { rewrite py_slice_from_drop by lia.
    rewrite (app_assoc nonce tag ct).
    rewrite drop_app_length'; [done|].
    rewrite length_app. subst tag. rewrite length_hmac. lia. }
  unfold bind at 1, enter at 1. unfold bind at 1.
  rewrite decrypt_runs. fold ak ek tag.
  rewrite bool_decide_eq_true_2 by done.
  rewrite Hct. fold ks. subst ct. rewrite zip_xor_involutive by done.
  unfold bind at 1, AdvancedFragmentation.lookup_bytes at 1.
  rewrite Hverification. unfold ret at 1.
  unfold bind at 1, AdvancedFragmentation.lookup_int at 1.
  rewrite Hsize. unfold ret at 1.
  unfold bind at 1. rewrite Hextract.
  unfold bind at 1, enter at 1.
  by rewrite Hparse.
Qed.
End RoundTrip.

(** The round trip for any byte form that parses back: [protect_data]
    returns fragments and metadata, whatever random bytes it draws, and
    [unprotect_data] of these with the same keys returns the record. *)
Lemma round_trip_for_any_codec {record : Type}
    (format : AdvancedFragmentation.codec record)
    (keys : AdvancedFragmentation.key_convention) (data : record)
    (ic_key phone_key : bytes)
    (enable_anti_tampering enable_time_lock skip_time_lock : bool)
    (time_lock_duration : Z) (w : world) :
  passes_validation ic_key phone_key →
  AdvancedFragmentation.deserialize format
    (AdvancedFragmentation.serialize format data) = Some data →
  ∃ (w' : world) (fragment_a fragment_b : bytes) (merkle_root : string)
    (metadata : gmap string value),
    SecurityCore.protect_data (AdvancedFragmentation.imports format keys) data
      ic_key phone_key enable_anti_tampering enable_time_lock
      time_lock_duration w
    = (w', Returned (fragment_a, fragment_b, merkle_root, metadata))
    ∧ ∀ w2 : world,
        result_of
          (SecurityCore.unprotect_data
             (AdvancedFragmentation.imports format keys) fragment_a fragment_b
             ic_key phone_key metadata skip_time_lock) w2
        = Returned data.
Proof.
  intros Hvalid Hcodec.
  rewrite protect_data_runs by done. cbn [split_into_fragments_advanced
    generate_key_fingerprint AdvancedFragmentation.imports].
  destruct (split_runs format keys ic_key phone_key data enable_anti_tampering
              enable_time_lock time_lock_duration
              (entering [protect_data_entered; validate_hardware_keys_entered;
                         generate_key_fingerprint_entered] w))
    as (w' & marked & verification & nonce & metadata
        & Hsplit & Hnonce & Hverification & Hsize & Hextract).
  unfold bind at 1. rewrite Hsplit.
  unfold bind at 1, now_isoformat at 1, ret.
  eexists _, _, _, _, _. split; [reflexivity|].
  intros w2. unfold result_of. rewrite unprotect_data_runs by done. cbn zeta.
  unfold dict_update. cbn [fold_left fst snd generate_key_fingerprint
    reconstruct_data_advanced AdvancedFragmentation.imports].
  rewrite bool_decide_eq_true_2
    by (by rewrite !lookup_insert_ne, lookup_insert_eq by done).
  unfold bind.
  match goal with
  | |- context [AdvancedFragmentation.reconstruct_data_advanced
                  ?f ?k ?fa ?fb ?ic ?ph ?md ?sk ?w0] =>
      pose proof (reconstruct_runs f k ic ph fb nonce marked verification
                    (AdvancedFragmentation.serialize format data) data md
                    (len (AdvancedFragmentation.serialize format data)) sk w0
                    Hnonce) as Hrun
  end.
  unfold result_of in Hrun.
  destruct (AdvancedFragmentation.reconstruct_data_advanced _ _ _ _ _ _ _ _ _)
    as [w3 out].
  simpl in Hrun. rewrite Hrun; [done| | |done|done];
    by rewrite !lookup_insert_ne by done.
Qed.

(** ** The canonical byte form parses back *)

Section CanonicalForm.
Import StructuredRecord.

Lemma decode_encode_positive (p : positive) (rest : bytes) :
  decode_positive (encode_positive p ++ rest) = Some (p, rest).
Proof. induction p as [p IH|p IH|]; simpl; by rewrite ?IH. Qed.

Lemma decode_encode_integer (n : Z) (rest : bytes) :
  decode_integer (encode_integer n ++ rest) = Some (n, rest).
Proof. destruct n; simpl; by rewrite ?decode_encode_positive. Qed.

Lemma decode_encode_text (s : string) (rest : bytes) :
  decode_text (encode_text s ++ rest) = Some (s, rest).
Proof.
  unfold decode_text, encode_text. cbn zeta.
  rewrite <- app_assoc, decode_encode_integer.
  rewrite bool_decide_eq_true_2
    by (unfold len; rewrite length_app; lia).
  unfold len. rewrite Nat2Z.id, take_app_length, drop_app_length.
  unfold encode_utf8. by rewrite String.string_of_list_byte_of_string.
Qed.

Lemma encode_item_nonempty (v : item) : 0 < length (encode_item v).
Proof. destruct v as [|[]| | | |]; simpl; lia. Qed.

Lemma length_encode_sequence {A : Type} (encode : A → bytes) (l : list A) :
  length l < length (encode_sequence encode l).
Proof.
  induction l as [|a l IH]; simpl; [lia|]. rewrite length_app. lia.
Qed.

Lemma length_encode_element {A : Type} (encode : A → bytes) (l : list A)
    (a : A) :
  a ∈ l → length (encode a) < length (encode_sequence encode l).
Proof.
  induction 1 as [a l|a b l _ IH]; simpl; rewrite length_app; lia.
Qed.

Lemma decode_encode_sequence {A : Type} (encode : A → bytes)
    (decode : bytes → option (A * bytes)) (l : list A) :
  Forall (fun a => ∀ rest, decode (encode a ++ rest) = Some (a, rest)) l →
  ∀ (fuel : nat) (rest : bytes),
    length l < fuel →
    decode_sequence decode fuel (encode_sequence encode l ++ rest)
    = Some (l, rest).
Proof.
  induction 1 as [|a l Ha _ IH]; intros fuel rest Hfuel;
    (destruct fuel as [|fuel]; [simpl in Hfuel; lia|]); [done|].
  simpl. rewrite <- app_assoc, Ha, IH; [done|]. simpl in Hfuel. lia.
Qed.

Lemma decode_encode_item (fuel : nat) :
  ∀ (v : item) (rest : bytes),
    length (encode_item v) ≤ fuel →
    decode_item fuel (encode_item v ++ rest) = Some (v, rest).
Proof.
  induction fuel as [|fuel IH]; intros v rest Hfuel.
  { pose proof (encode_item_nonempty v). lia. }
  destruct v as [|[]|n|s|l|entries]; try done.
  - simpl. by rewrite decode_encode_integer.
  - simpl. by rewrite decode_encode_text.
  - simpl in Hfuel |- *.
    rewrite (decode_encode_sequence encode_item); [done| |].
    + apply Forall_forall. intros a Ha rest'. apply IH.
      pose proof (length_encode_element encode_item l a Ha). lia.
    + pose proof (length_encode_sequence encode_item l). lia.
  - simpl in Hfuel |- *.
    set (encode := fun entry : string * item =>
                     encode_text (fst entry) ++ encode_item (snd entry))
      in Hfuel |- *.
    rewrite (decode_encode_sequence encode); [done| |].
    + apply Forall_forall. intros [key v] Hin rest'.
      pose proof (length_encode_element encode entries _ Hin) as Hlen.
      unfold encode at 1 in Hlen. unfold encode at 1.
      cbn [fst snd] in Hlen |- *. rewrite length_app in Hlen.
      rewrite <- app_assoc, decode_encode_text, IH; [done|]. lia.
    + pose proof (length_encode_sequence encode entries). lia.
Qed.

(** Every record is what the parser reads from its canonical byte form. *)
Lemma deserialize_serialize (data : record) :
  deserialize (serialize data) = Some data.
Proof.
  unfold deserialize.
  rewrite <- (app_nil_r (serialize data)) at 2.
  unfold serialize. rewrite decode_encode_item by lia. done.
Qed.
End CanonicalForm.



(** Scenario C of the specification: the phone key replaced. *)
Lemma scenario_C_fingerprint_mismatch :
  let metadata : gmap string value :=
    {[ "key_fingerprint" := VStr "5189c77d29fe5d54" ]} in
  let call :=
    SecurityCore.unprotect_data SamplePipeline.imports [] [] Sample.key_11
      Sample.key_33 metadata false in
  call Sample.world0
  = (entering [unprotect_data_entered; validate_hardware_keys_entered;
               generate_key_fingerprint_entered] Sample.world0,
     Raised FingerprintMismatch).
Proof.
  intros metadata call.
  apply (fingerprint_mismatch_stops_unprotect SamplePipeline.imports [] []
           Sample.key_11 Sample.key_33 metadata false Sample.world0).
  - unfold passes_validation. repeat split; discriminate.
  - vm_compute. discriminate.
Defined.

(** Scenarios A and B of the specification, evaluated: the fragments have
    the sizes stated, and with one byte of fragment A flipped (the first
    byte of the ciphertext, behind nonce and tag) [unprotect_data] raises
    [AuthenticationFailure]. *)
Example scenario_B_tampering_is_detected :
  match SecurityCore.protect_data SamplePipeline.imports Sample.ahmad
          Sample.key_11 Sample.key_22 true false 0 Sample.world0 with
  | (w', Returned (fragment_a, fragment_b, merkle_root, metadata)) =>
      len fragment_a = 145%Z
      ∧ len fragment_b = 32%Z
      ∧ String.length merkle_root = 128
      ∧ result_of
          (SecurityCore.unprotect_data SamplePipeline.imports
             (alter (byte_xor Byte.xff) 80 fragment_a) fragment_b
             Sample.key_11 Sample.key_22 metadata false) w'
        = Raised AuthenticationFailure
  | _ => False
  end.
Proof. by vm_compute. Qed.

(** ** Key validation, as [SecurityCore] performs it *)

(** C4 fails as stated: each byte of the key of 32 bytes [0x01] is the
    same, and 32 of its 256 bits are one, outside the only bound on the
    entropy of a key in the sources (30 % to 70 % of one bits, in
    [ECCHardwareManager.validate_hardware_keys], which [SecurityCore] does
    not call).  With this key [protect_data] returns fragments and
    [unprotect_data] goes on to compare fingerprints.  The keys of
    scenario A of the specification, with 64 one bits each, are outside
    this bound as well. *)
Lemma keys_of_low_entropy_are_not_refused :
  count_ones Sample.key_01 = 32%Z
  ∧ ECCHardwareManager.unusual_entropy (count_ones Sample.key_01) = true
  ∧ result_of (ECCHardwareManager.validate_hardware_keys Sample.key_01
                 Sample.key_01) Sample.world0
    = Returned (false, ECCHardwareManager.ic_key_has_unusual_entropy 32)
  ∧ (∃ (w' : world) (fragment_a fragment_b : bytes) (merkle_root : string)
       (metadata : gmap string value),
       SecurityCore.protect_data ScenarioA.imports StructuredRecord.ahmad
         Sample.key_01 Sample.key_01 true false 0 Sample.world0
       = (w', Returned (fragment_a, fragment_b, merkle_root, metadata)))
  ∧ SecurityCore.unprotect_data ScenarioA.imports [] [] Sample.key_01
      Sample.key_01 ∅ false Sample.world0
    = (entering [unprotect_data_entered; validate_hardware_keys_entered;
                 generate_key_fingerprint_entered] Sample.world0,
       Raised FingerprintMismatch)
  ∧ ECCHardwareManager.unusual_entropy (count_ones Sample.key_11) = true
  ∧ ECCHardwareManager.unusual_entropy (count_ones Sample.key_22) = true.
Proof.
  assert (Hvalid : passes_validation Sample.key_01 Sample.key_01)
    by (unfold passes_validation; repeat split; discriminate).
  split; [reflexivity|]. split; [reflexivity|]. split; [reflexivity|].
  split; [|split; [|split; reflexivity]].
  - destruct (round_trip_for_any_codec StructuredRecord.format
                SamplePipeline.convention StructuredRecord.ahmad Sample.key_01
                Sample.key_01 true false false 0 Sample.world0 Hvalid
                (deserialize_serialize _))
      as (w' & fragment_a & fragment_b & merkle_root & metadata & Hprotect & _).
    by exists w', fragment_a, fragment_b, merkle_root, metadata.
  - rewrite unprotect_data_runs by done. cbn zeta.
    by rewrite bool_decide_eq_false_2 by (by rewrite lookup_empty).
Qed.

(** C4, amended. For every call to [protect_data] or [unprotect_data],
    whatever the imported pipeline is: if either key has a length other
    than 32 bytes or is all zeros, the operation raises
    [InvalidKeyMaterial] having entered nothing but itself and
    [_validate_hardware_keys], so that no pipeline work (serialization,
    canary injection, encryption, fingerprinting) happens first.  The
    entropy of a key is not examined: every other pair of keys is let
    through by the validation. *)
Theorem keys_are_refused_for_length_or_zeros_only {record : Type}
    (imports : data_fragmentation_advanced record) (data : record)
    (fragment_a fragment_b ic_key phone_key : bytes)
    (metadata : gmap string value)
    (enable_anti_tampering enable_time_lock skip_time_lock : bool)
    (time_lock_duration : Z) (w : world) :
  let protect :=
    SecurityCore.protect_data imports data ic_key phone_key
      enable_anti_tampering enable_time_lock time_lock_duration in
  let unprotect :=
    SecurityCore.unprotect_data imports fragment_a fragment_b ic_key
      phone_key metadata skip_time_lock in
  (len ic_key ≠ 32%Z ∨ len phone_key ≠ 32%Z
   ∨ ic_key = repeat Byte.x00 32 ∨ phone_key = repeat Byte.x00 32 →
   ∃ why,
     protect w
     = (entering [protect_data_entered; validate_hardware_keys_entered] w,
        Raised (InvalidKeyMaterial why))
     ∧ unprotect w
       = (entering [unprotect_data_entered; validate_hardware_keys_entered] w,
          Raised (InvalidKeyMaterial why))
     ∧ Forall (fun m => ¬ pipeline_work m) (entered_by protect w)
     ∧ Forall (fun m => ¬ pipeline_work m) (entered_by unprotect w))
  ∧ (len ic_key = 32%Z ∧ len phone_key = 32%Z
     ∧ ic_key ≠ repeat Byte.x00 32 ∧ phone_key ≠ repeat Byte.x00 32 →
     SecurityCore._validate_hardware_keys ic_key phone_key w
     = (entering [validate_hardware_keys_entered] w, Returned tt)).
Proof.
  intros protect unprotect. split.
  - intros Hbad.
    assert (Hnot : ¬ passes_validation ic_key phone_key).
    { intros (Hic & Hphone & Hic0 & Hphone0).
      destruct Hbad as [?|[?|[?|?]]]; done. }
    destruct (invalid_keys_stop_both_operations imports data fragment_a
                fragment_b ic_key phone_key metadata enable_anti_tampering
                enable_time_lock skip_time_lock time_lock_duration w Hnot)
      as (why & Hprotect & Hunprotect).
    exists why. split; [done|]. split; [done|].
    unfold entered_by. fold protect in Hprotect. fold unprotect in Hunprotect.
    rewrite Hprotect, Hunprotect. cbn [fst trace entering].
    rewrite !drop_app_length. unfold pipeline_work.
    split; repeat constructor; intros Hwork; apply Hwork;
      repeat constructor.
  - intros Hvalid. by apply validate_accepts.
Qed.

(** An IC key of 32 zero bytes, with the record and the other key of
    scenario A. *)
Lemma zero_key_is_refused_before_any_work :
  ∃ why,
    SecurityCore.protect_data ScenarioA.imports StructuredRecord.ahmad
      (repeat Byte.x00 32) Sample.key_22 true false 0 Sample.world0
    = (entering [protect_data_entered; validate_hardware_keys_entered]
         Sample.world0,
       Raised (InvalidKeyMaterial why))
    ∧ SecurityCore.unprotect_data ScenarioA.imports [] []
        (repeat Byte.x00 32) Sample.key_22 ∅ false Sample.world0
      = (entering [unprotect_data_entered; validate_hardware_keys_entered]
           Sample.world0,
         Raised (InvalidKeyMaterial why)).
Proof.
  destruct (keys_are_refused_for_length_or_zeros_only ScenarioA.imports
              StructuredRecord.ahmad [] [] (repeat Byte.x00 32) Sample.key_22
              ∅ true false false 0 Sample.world0) as [Hrefused _].
  destruct Hrefused as (why & Hprotect & Hunprotect & _).
  - right. right. left. reflexivity.
  - by exists why.
Defined.

(** * Further properties of the code *)

(** ** The algebra of XOR on bytes *)

Lemma byte_xor_to_N (a b : byte) :
  Byte.to_N (byte_xor a b) = N.lxor (Byte.to_N a) (Byte.to_N b).
Proof.
  unfold byte_xor. rewrite to_N_byte_of_N.
  pose proof (Byte.to_N_bounded a). pose proof (Byte.to_N_bounded b).
  apply N.mod_small, (lxor_below _ _ 8); simpl; lia.
Qed.

Lemma byte_eq_of_to_N (a b : byte) : Byte.to_N a = Byte.to_N b → a = b.
Proof.
  intros Heq%(f_equal Byte.of_N). rewrite !Byte.of_to_N in Heq.
  by injection Heq.
Qed.

Lemma byte_xor_comm (a b : byte) : byte_xor a b = byte_xor b a.
Proof. apply byte_eq_of_to_N. by rewrite !byte_xor_to_N, N.lxor_comm. Qed.

Lemma byte_xor_assoc (a b c : byte) :
  byte_xor (byte_xor a b) c = byte_xor a (byte_xor b c).
Proof. apply byte_eq_of_to_N. by rewrite !byte_xor_to_N, N.lxor_assoc. Qed.

(** [(a ^ k) ^ (b ^ k) = a ^ b] *)
Lemma byte_xor_same_key (a b k : byte) :
  byte_xor (byte_xor a k) (byte_xor b k) = byte_xor a b.
Proof.
  apply byte_eq_of_to_N. rewrite !byte_xor_to_N.
  rewrite (N.lxor_comm (Byte.to_N b)), N.lxor_assoc,
    <- (N.lxor_assoc (Byte.to_N k)), N.lxor_nilpotent, N.lxor_0_l.
  done.
Qed.

(** [(a ^ d) ^ k = (a ^ k) ^ d] *)
Lemma byte_xor_swap (a d k : byte) :
  byte_xor (byte_xor a d) k = byte_xor (byte_xor a k) d.
Proof.
  rewrite !byte_xor_assoc. f_equal. apply byte_xor_comm.
Qed.
(** ** The keystream, block by block *)

Lemma length_keystream_block (key nonce : bytes) (i : nat) :
  length (keystream_block key nonce i) = 64.
Proof. apply length_hmac. Qed.

Lemma length_keystream_blocks (key nonce : bytes) (k : nat) :
  length (keystream_blocks key nonce k) = 64 * k.
Proof.
  unfold keystream_blocks. induction k as [|k IH]; [done|].
  rewrite seq_S, map_app, concat_app, length_app, IH. simpl.
  rewrite app_nil_r, length_keystream_block. lia.
Qed.

Lemma keystream_blocks_S (key nonce : bytes) (k : nat) :
  keystream_blocks key nonce (S k)
  = keystream_blocks key nonce k ++ keystream_block key nonce k.
Proof.
  unfold keystream_blocks.
  rewrite seq_S, map_app, concat_app. simpl. by rewrite app_nil_r.
Qed.

Lemma keystream_blocks_prefix (key nonce : bytes) (k k' : nat) :
  k ≤ k' → keystream_blocks key nonce k `prefix_of` keystream_blocks key nonce k'.
Proof.
  induction 1 as [|k' _ IH]; [done|].
  rewrite keystream_blocks_S. by apply prefix_app_r.
Qed.

Lemma blocks_needed_spec (n : Z) (c : nat) :
  (64 * Z.of_nat c < n)%Z ↔ c < blocks_needed n.
Proof.
  unfold blocks_needed.
  pose proof (Z.div_mod (n + 63) 64). pose proof (Z.mod_pos_bound (n + 63) 64).
  split; intros Hlt; lia.
Qed.

(** The loop, started on [c] whole blocks, ends on the blocks needed. *)
Lemma keystream_loop_blocks (key nonce : bytes) (n : Z) (fuel : nat) :
  ∀ c : nat,
    (n - 64 * Z.of_nat c ≤ 64 * Z.of_nat fuel)%Z →
    EncryptionEngine.keystream_loop fuel key nonce n
      (keystream_blocks key nonce c) (Z.of_nat c)
    = Some (keystream_blocks key nonce (c `max` blocks_needed n)).
Proof.
  induction fuel as [|fuel IH]; intros c Hfuel;
    rewrite keystream_loop_unfold; unfold len;
    rewrite length_keystream_blocks; case_bool_decide as Hlt.
  - lia.
  - f_equal. f_equal.
    assert (¬ c < blocks_needed n) by (rewrite <- blocks_needed_spec; lia). lia.
  - assert (c < blocks_needed n) by (apply blocks_needed_spec; lia).
    replace (Z.to_N (Z.of_nat c)) with (N.of_nat c) by lia.
    fold (keystream_block key nonce c). rewrite <- keystream_blocks_S.
    replace (Z.of_nat c + 1)%Z with (Z.of_nat (S c)) by lia.
    rewrite IH by lia. f_equal. f_equal. lia.
  - f_equal. f_equal.
    assert (¬ c < blocks_needed n) by (rewrite <- blocks_needed_spec; lia). lia.
Qed.

Lemma keystream_as_blocks (key nonce : bytes) (n : Z) :
  EncryptionEngine.keystream key nonce n
  = take (Z.to_nat n) (keystream_blocks key nonce (blocks_needed n)).
Proof.
  unfold EncryptionEngine.keystream.
  pose proof (keystream_loop_blocks key nonce n (Z.to_nat n) 0) as Hloop.
  change (Z.of_nat 0) with 0%Z in Hloop.
  change (keystream_blocks key nonce 0) with (@nil byte) in Hloop.
  rewrite Hloop by lia. rewrite Nat.max_0_l.
  destruct (decide (0 ≤ n)%Z).
  - by rewrite py_slice_to_take.
  - assert (blocks_needed n = 0) as ->.
    { unfold blocks_needed.
      pose proof (Z.div_mod (n + 63) 64).
      pose proof (Z.mod_pos_bound (n + 63) 64). lia. }
    change (keystream_blocks key nonce 0) with (@nil byte).
    unfold py_slice_to, py_slice. by rewrite drop_nil, !take_nil.
Qed.

(** X2. [_generate_keystream] returns the first [length] bytes of
    HMAC(key, nonce ‖ 0) ‖ HMAC(key, nonce ‖ 1) ‖ ..., the counter written on
    8 big-endian bytes, over the ceil(length / 64) blocks the loop produces:
    exactly [length] bytes, and none for a length of zero or less. *)
Theorem keystream_is_the_hmac_blocks (key nonce : bytes) (n : Z) (w : world) :
  EncryptionEngine._generate_keystream key nonce n w
  = (entering [generate_keystream_entered] w,
     Returned (take (Z.to_nat n)
                 (keystream_blocks key nonce (blocks_needed n))))
  ∧ length (take (Z.to_nat n) (keystream_blocks key nonce (blocks_needed n)))
    = Z.to_nat n.
Proof.
  rewrite generate_keystream_returns, <- keystream_as_blocks. split; [done|].
  apply length_keystream.
Qed.


Lemma blocks_needed_mono (n m : Z) :
  (n ≤ m)%Z → blocks_needed n ≤ blocks_needed m.
Proof.
  intros Hle. unfold blocks_needed.
  pose proof (Z.div_le_mono (n + 63) (m + 63) 64). lia.
Qed.

Lemma blocks_needed_cover (n : Z) : (n ≤ 64 * Z.of_nat (blocks_needed n))%Z.
Proof.
  destruct (decide (64 * Z.of_nat (blocks_needed n) < n)%Z) as [Hlt|]; [|lia].
  apply blocks_needed_spec in Hlt. lia.
Qed.

(** The keystream of a shorter length is the beginning of the keystream of
    a longer one. *)
Lemma keystream_prefix (key nonce : bytes) (n m : Z) :
  (n ≤ m)%Z →
  EncryptionEngine.keystream key nonce n
  = take (Z.to_nat n) (EncryptionEngine.keystream key nonce m).
Proof.
  intros Hle. rewrite !keystream_as_blocks.
  rewrite take_take, Nat.min_l by lia.
  destruct (keystream_blocks_prefix key nonce (blocks_needed n)
              (blocks_needed m) (blocks_needed_mono n m Hle)) as [rest ->].
  rewrite take_app_le; [done|].
  rewrite length_keystream_blocks. pose proof (blocks_needed_cover n). lia.
Qed.

Lemma zip_xor_app (p q ks : bytes) :
  zip_with byte_xor (p ++ q) ks
  = zip_with byte_xor p (take (length p) ks)
    ++ zip_with byte_xor q (drop (length p) ks).
Proof.
  revert ks. induction p as [|b p IH]; intros [|k ks]; simpl; try done.
  - by destruct q.
  - by rewrite IH.
Qed.

(** X3. The cipher is a stream cipher: under one key and one nonce, the
    ciphertext of [p ++ q] begins with the ciphertext of [p] and continues
    with as many bytes as [q] has. *)
Theorem ciphertext_of_a_prefix (p q key nonce : bytes) (w w' : world) :
  ∃ c rest : bytes,
    result_of (EncryptionEngine._aes_ctr_encrypt p key nonce) w = Returned c
    ∧ result_of (EncryptionEngine._aes_ctr_encrypt (p ++ q) key nonce) w'
      = Returned (c ++ rest)
    ∧ length c = length p ∧ length rest = length q.
Proof.
  unfold result_of. rewrite !aes_ctr_encrypt_returns. simpl.
  eexists _, _. split; [done|]. rewrite zip_xor_app. split; [|split].
  - do 2 f_equal. f_equal. unfold len.
    rewrite (keystream_prefix key nonce (Z.of_nat (length p))
               (Z.of_nat (length (p ++ q))))
      by (rewrite length_app; lia).
    by rewrite Nat2Z.id.
  - rewrite length_zip_with, length_keystream. unfold len. lia.
  - rewrite length_zip_with, length_drop, length_keystream. unfold len.
    rewrite length_app. lia.
Qed.


Lemma zip_xor_comm (a b : bytes) :
  zip_with byte_xor a b = zip_with byte_xor b a.
Proof.
  revert b. induction a as [|x a IH]; intros [|y b]; simpl; try done.
  by rewrite byte_xor_comm, IH.
Qed.

Lemma zip_xor_same_keystream (p1 p2 ks : bytes) :
  length p1 ≤ length p2 → length p2 ≤ length ks →
  zip_with byte_xor (zip_with byte_xor p1 (take (length p1) ks))
                    (zip_with byte_xor p2 ks)
  = zip_with byte_xor p1 p2.
Proof.
  revert p2 ks. induction p1 as [|a p1 IH]; intros [|b p2] [|k ks] H1 H2;
    simpl in *; try done; try lia.
  rewrite byte_xor_same_key. f_equal. apply IH; lia.
Qed.

Lemma xor_of_two_ciphertexts (p1 p2 key nonce : bytes) :
  length p1 ≤ length p2 →
  zip_with byte_xor
    (zip_with byte_xor p1 (EncryptionEngine.keystream key nonce (len p1)))
    (zip_with byte_xor p2 (EncryptionEngine.keystream key nonce (len p2)))
  = zip_with byte_xor p1 p2.
Proof.
  intros Hle. unfold len.
  rewrite (keystream_prefix key nonce (Z.of_nat (length p1))
             (Z.of_nat (length p2))) by lia.
  rewrite Nat2Z.id. apply zip_xor_same_keystream; [done|].
  rewrite length_keystream. lia.
Qed.

(** X4. Reusing a nonce under one key gives the plaintexts away up to XOR:
    the XOR of the two ciphertexts is the XOR of the two plaintexts (on the
    length of the shorter one). *)
Theorem nonce_reuse_reveals_the_xor (p1 p2 key nonce : bytes) (w1 w2 : world) :
  ∃ c1 c2 : bytes,
    result_of (EncryptionEngine._aes_ctr_encrypt p1 key nonce) w1 = Returned c1
    ∧ result_of (EncryptionEngine._aes_ctr_encrypt p2 key nonce) w2
      = Returned c2
    ∧ zip_with byte_xor c1 c2 = zip_with byte_xor p1 p2.
Proof.
  unfold result_of. rewrite !aes_ctr_encrypt_returns. simpl.
  eexists _, _. split; [done|]. split; [done|].
  destruct (decide (length p1 ≤ length p2)).
  - by apply xor_of_two_ciphertexts.
  - rewrite zip_xor_comm, (zip_xor_comm p1 p2).
    apply xor_of_two_ciphertexts. lia.
Qed.

Lemma zip_xor_swap (ct delta ks : bytes) :
  length ct ≤ length ks →
  zip_with byte_xor (zip_with byte_xor ct delta)
    (take (length (zip_with byte_xor ct delta)) ks)
  = zip_with byte_xor (zip_with byte_xor ct ks) delta.
Proof.
  revert delta ks. induction ct as [|c ct IH]; intros [|d delta] [|k ks] Hlen;
    simpl in *; try done; try lia.
  rewrite byte_xor_swap. f_equal. apply IH. lia.
Qed.

(** X5. The counter-mode layer alone keeps no integrity: XORing any
    [delta] into a ciphertext XORs the same [delta] into what
    [_aes_ctr_decrypt] returns.  Only the tag checked by [decrypt] stands
    against it. *)
Theorem ctr_layer_is_malleable (ciphertext delta key nonce : bytes)
    (w w' : world) :
  ∃ plaintext : bytes,
    result_of (EncryptionEngine._aes_ctr_decrypt ciphertext key nonce) w
    = Returned plaintext
    ∧ result_of (EncryptionEngine._aes_ctr_decrypt
                   (zip_with byte_xor ciphertext delta) key nonce) w'
      = Returned (zip_with byte_xor plaintext delta).
Proof.
  unfold result_of. rewrite !aes_ctr_decrypt_returns. simpl.
  eexists. split; [done|]. f_equal.
  rewrite <- (zip_xor_swap ciphertext delta
                (EncryptionEngine.keystream key nonce (len ciphertext)))
    by (rewrite length_keystream; unfold len; lia).
  f_equal. unfold len.
  rewrite (keystream_prefix key nonce
             (Z.of_nat (length (zip_with byte_xor ciphertext delta)))
             (Z.of_nat (length ciphertext)))
    by (rewrite length_zip_with; lia).
  by rewrite Nat2Z.id.
Qed.

Lemma encrypt_returns (plaintext encryption_key authentication_key : bytes)
    (nonce : option bytes) (w : world) :
  let used := default (draw w 0 16) nonce in
  let ciphertext :=
    zip_with byte_xor plaintext
      (EncryptionEngine.keystream encryption_key used (len plaintext)) in
  ∃ w' : world,
    EncryptionEngine.encrypt plaintext encryption_key authentication_key
      nonce w
    = (w', Returned (ciphertext, used,
                     hmac.new_sha512_digest authentication_key ciphertext))
    ∧ drawn w' = drawn w + match nonce with Some _ => 0 | None => 16 end.
Proof.
  destruct nonce as [nonce|]; simpl.
  - unfold EncryptionEngine.encrypt, EncryptionEngine._compute_hmac, bind,
      enter, ret.
    rewrite aes_ctr_encrypt_returns. simpl. eexists. split; [done|]. simpl. lia.
  - eexists. split; [apply encrypt_runs|done].
Qed.

(** X1. Whatever the plaintext, the keys and the nonce argument, [encrypt]
    returns a ciphertext as long as the plaintext, the nonce it used (the
    one given, in which case no random byte is drawn, or 16 fresh random
    bytes) and a tag of 64 bytes; [decrypt] of these under the same keys
    returns the plaintext. *)
Theorem encrypt_then_decrypt_returns_the_plaintext
    (plaintext encryption_key authentication_key : bytes)
    (nonce : option bytes) (w : world) :
  ∃ (w' : world) (ciphertext used tag : bytes),
    EncryptionEngine.encrypt plaintext encryption_key authentication_key
      nonce w
    = (w', Returned (ciphertext, used, tag))
    ∧ length ciphertext = length plaintext
    ∧ length tag = 64
    ∧ match nonce with
      | Some given => used = given ∧ drawn w' = drawn w
      | None => length used = 16 ∧ drawn w' = drawn w + 16
      end
    ∧ ∀ w2 : world,
        result_of (EncryptionEngine.decrypt ciphertext encryption_key
                     authentication_key used tag) w2
        = Returned plaintext.
Proof.
  destruct (encrypt_returns plaintext encryption_key authentication_key
              nonce w) as (w' & Hrun & Hdrawn).
  set (used := default (draw w 0 16) nonce) in *.
  assert (Hks : length plaintext
                ≤ length (EncryptionEngine.keystream encryption_key used
                            (len plaintext))).
  { rewrite length_keystream. unfold len. lia. }
  eexists _, _, _, _. split; [exact Hrun|].
  split; [by apply length_zip_xor|]. split; [apply length_hmac|]. split.
  - subst used. destruct nonce; simpl in *; [split; [done|lia]|].
    split; [by rewrite ?length_draw|done].
  - intros w2. unfold result_of. rewrite decrypt_runs.
    rewrite bool_decide_eq_true_2 by done. simpl. f_equal.
    unfold len. rewrite length_zip_xor by done.
    by apply zip_xor_involutive.
Qed.

(** X6. A tag that is not 64 bytes long is never accepted: [decrypt]
    raises [AuthenticationFailure] after the tag comparison, whatever the
    ciphertext and the keys (no truncated tag passes). *)
Theorem tag_of_wrong_length_is_rejected
    (ciphertext encryption_key authentication_key nonce hmac_tag : bytes)
    (w : world) :
  length hmac_tag ≠ 64 →
  EncryptionEngine.decrypt ciphertext encryption_key authentication_key nonce
    hmac_tag w
  = (entering [decrypt_entered; verify_hmac_entered; compute_hmac_entered] w,
     Raised AuthenticationFailure).
Proof.
  intros Hlen. rewrite decrypt_runs.
  rewrite bool_decide_eq_false_2; [done|].
  intros <-. by rewrite length_hmac in Hlen.
Qed.

Lemma empty_tag_is_rejected :
  EncryptionEngine.decrypt Sample.ahmad Sample.key_11 Sample.key_22
    Sample.nonce_a [] Sample.world0
  = (entering [decrypt_entered; verify_hmac_entered; compute_hmac_entered]
       Sample.world0,
     Raised AuthenticationFailure).
Proof.
  apply (tag_of_wrong_length_is_rejected Sample.ahmad Sample.key_11
           Sample.key_22 Sample.nonce_a [] Sample.world0).
  simpl. lia.
Defined.


(** ** Canary tokens: sizes and coverage *)

(** X7. [inject_tokens] always adds 48 bytes: it returns the data grown
    by three tokens of 16 bytes and a verification value of 32 bytes, and
    draws exactly 48 random bytes, also for empty data. *)
Theorem inject_tokens_adds_48_bytes (data : bytes) (w : world) :
  ∃ (w' : world) (marked verification : bytes),
    CanaryTokenManager.inject_tokens data w
    = (w', Returned (marked, verification))
    ∧ length marked = length data + 48
    ∧ length verification = 32
    ∧ drawn w' = drawn w + 48.
Proof.
  eexists _, _, _. split; [apply inject_tokens_runs|].
  split; [|split; [apply length_sha256|done]].
  destruct (chunk_lengths data) as (L0 & L1 & L2).
  unfold len in *. rewrite !length_app, !length_draw. lia.
Qed.

Lemma py_slice_insert_outside {A} (l : list A) (i : nat) (x : A) (lo hi : Z) :
  (0 ≤ lo)%Z → (0 ≤ hi)%Z → (Z.of_nat i < lo ∨ hi ≤ Z.of_nat i)%Z →
  py_slice (<[i:=x]> l) lo hi = py_slice l lo hi.
Proof.
  intros Hlo Hhi Hout. rewrite !py_slice_nonneg by done.
  destruct (decide (i < Z.to_nat lo)).
  - by rewrite drop_insert_lt.
  - rewrite drop_insert_ge by lia.
    destruct Hout; [lia|]. apply take_insert_ge. lia.
Qed.

(** X8. The tokens do not cover the data: for a non-negative
    [original_length], overwriting a byte at any position outside the three
    16-byte token windows leaves the tokens read unchanged, so
    [verify_and_extract] raises on the altered bytes exactly when it raises
    on the original ones.  (The self-test of [canary_tokens.py] flips byte
    50 of 61 bytes of data, which lies in the second chunk.) *)
Theorem bytes_outside_the_token_windows_are_not_covered
    (data_with_canaries verification : bytes) (original_length : Z) (i : nat)
    (b : byte) (w w' : world) :
  (0 ≤ original_length)%Z →
  ¬ in_token_window original_length i →
  tokens_at_stride (<[i:=b]> data_with_canaries) original_length
  = tokens_at_stride data_with_canaries original_length
  ∧ (result_of (CanaryTokenManager.verify_and_extract
                  (<[i:=b]> data_with_canaries) verification original_length) w
     = Raised TamperDetected
     ↔ result_of (CanaryTokenManager.verify_and_extract data_with_canaries
                    verification original_length) w'
       = Raised TamperDetected).
Proof.
  intros Hn Hout.
  assert (0 ≤ original_length `div` 3)%Z as Hc by (apply Z.div_pos; lia).
  assert (Htokens :
    tokens_at_stride (<[i:=b]> data_with_canaries) original_length
    = tokens_at_stride data_with_canaries original_length).
  { unfold in_token_window in Hout. unfold tokens_at_stride.
    rewrite !py_slice_insert_outside by lia. done. }
  split; [done|].
  unfold result_of. rewrite !verify_and_extract_runs, Htokens. simpl.
  by case_bool_decide.
Qed.

(** The position of the self-test: byte 50 for 61 bytes of data. *)
Lemma byte_50_of_the_self_test_is_not_covered :
  tokens_at_stride (<[50:=Byte.xff]> (repeat Byte.x00 109)) 61
  = tokens_at_stride (repeat Byte.x00 109) 61.
Proof.
  apply (bytes_outside_the_token_windows_are_not_covered
           (repeat Byte.x00 109) [] 61 50 Byte.xff Sample.world0 Sample.world0).
  - lia.
  - unfold in_token_window. change (61 `div` 3)%Z with 20%Z. lia.
Defined.

Lemma length_py_slice {A} (l : list A) (lo hi : Z) :
  (0 ≤ lo ≤ hi)%Z → (hi ≤ len l)%Z →
  length (py_slice l lo hi) = Z.to_nat (hi - lo).
Proof.
  intros Hlo Hhi. unfold len in Hhi. rewrite py_slice_nonneg by lia.
  rewrite length_take, length_drop. lia.
Qed.

(** X9. For a non-negative [original_length] and an input of at least
    [original_length + 32] bytes, [verify_and_extract] either raises
    [TamperDetected] or returns exactly [original_length] bytes. *)
Theorem extraction_returns_original_length_bytes
    (data_with_canaries verification : bytes) (original_length : Z)
    (w : world) :
  (0 ≤ original_length)%Z →
  (original_length + 32 ≤ len data_with_canaries)%Z →
  result_of (CanaryTokenManager.verify_and_extract data_with_canaries
               verification original_length) w
  = Raised TamperDetected
  ∨ ∃ data : bytes,
      result_of (CanaryTokenManager.verify_and_extract data_with_canaries
                   verification original_length) w
      = Returned data
      ∧ len data = original_length.
Proof.
  intros Hn Hlen. unfold result_of. rewrite verify_and_extract_runs. simpl.
  case_bool_decide; [right|by left].
  eexists. split; [done|].
  assert (0 ≤ original_length `div` 3
          ∧ 3 * (original_length `div` 3) ≤ original_length)%Z as [Hc Hc3].
  { split; [apply Z.div_pos; lia|apply Z.mul_div_le; lia]. }
  unfold chunks_at_stride, len. cbn [concat].
  rewrite !length_app, !length_py_slice by lia. simpl. lia.
Qed.

Lemma extraction_of_48_bytes_returns_nothing_or_raises :
  result_of (CanaryTokenManager.verify_and_extract (repeat Byte.x00 48) [] 0)
    Sample.world0
  = Raised TamperDetected
  ∨ ∃ data : bytes,
      result_of (CanaryTokenManager.verify_and_extract (repeat Byte.x00 48)
                   [] 0) Sample.world0
      = Returned data
      ∧ len data = 0%Z.
Proof.
  apply (extraction_returns_original_length_bytes (repeat Byte.x00 48) [] 0
           Sample.world0).
  - lia.
  - unfold len. simpl. lia.
Defined.


(** ** [ECCHardwareManager]: signatures, validation, derived keys *)

(** X10. [verify_hardware_signature] returns [True] exactly when the
    signature is a prefix of SHA-256(public_key ‖ data).  The empty
    signature is therefore accepted for every data and every public key,
    and a signature of more than 32 bytes never is. *)
Theorem signature_check_accepts_any_prefix (data signature public_key : bytes) :
  (ECCHardwareManager.verify_hardware_signature data signature public_key
   = true
   ↔ signature `prefix_of` hashlib.sha256 (public_key ++ data))
  ∧ ECCHardwareManager.verify_hardware_signature data [] public_key = true
  ∧ (32 < length signature →
     ECCHardwareManager.verify_hardware_signature data signature public_key
     = false).
Proof.
  assert (Hiff : ∀ s,
    ECCHardwareManager.verify_hardware_signature data s public_key = true
    ↔ s `prefix_of` hashlib.sha256 (public_key ++ data)).
  { intros s. unfold ECCHardwareManager.verify_hardware_signature, len.
    rewrite bool_decide_eq_true, py_slice_to_take, Nat2Z.id by lia.
    split.
    - intros Heq. exists (drop (length s) (hashlib.sha256 (public_key ++ data))).
      rewrite Heq at 1. by rewrite take_drop.
    - intros [rest ->]. by rewrite take_app_length. }
  split; [apply Hiff|]. split.
  - apply Hiff, prefix_nil.
  - intros Hlong. apply not_true_is_false. intros Hok%Hiff%prefix_length.
    rewrite length_sha256 in Hok. lia.
Qed.

Lemma unusual_entropy_false (ones : Z) :
  ECCHardwareManager.unusual_entropy ones = false ↔ (77 ≤ ones ≤ 179)%Z.
Proof.
  unfold ECCHardwareManager.unusual_entropy.
  rewrite orb_false_iff, !bool_decide_eq_false. lia.
Qed.

Lemma zero_key_is_not_balanced : ¬ balanced (repeat Byte.x00 32).
Proof. unfold balanced. change (count_ones (repeat Byte.x00 32)) with 0%Z. lia. Qed.

(** X11. [ECCHardwareManager.validate_hardware_keys] never raises; it
    answers [True] exactly when both keys have 32 bytes and between 77 and
    179 one bits each (the all-zero test is implied), with the message
    "Hardware keys valid" exactly in that case; and every pair it accepts is
    accepted by [SecurityCore._validate_hardware_keys]. *)
Theorem ecc_validation_accepts_balanced_keys (ic_key phone_key : bytes)
    (w : world) :
  ∃ (is_valid : bool) (message : ECCHardwareManager.message),
    result_of (ECCHardwareManager.validate_hardware_keys ic_key phone_key) w
    = Returned (is_valid, message)
    ∧ (is_valid = true
       ↔ len ic_key = 32%Z ∧ len phone_key = 32%Z
         ∧ balanced ic_key ∧ balanced phone_key)
    ∧ (is_valid = true ↔ message = ECCHardwareManager.hardware_keys_valid)
    ∧ (is_valid = true →
       result_of (SecurityCore._validate_hardware_keys ic_key phone_key) w
       = Returned tt).
Proof.
  unfold result_of, ECCHardwareManager.validate_hardware_keys, bind, enter.
  pose proof zero_key_is_not_balanced as Hzero.
  repeat case_bool_decide; simpl;
    try (eexists _, _; split; [done|]; split; [|split]; [| |done];
         (split; [done|]); try done; intros (? & ? & ? & ?); by subst).
  destruct (ECCHardwareManager.unusual_entropy (count_ones ic_key)) eqn:Hic;
    [|destruct (ECCHardwareManager.unusual_entropy (count_ones phone_key))
        eqn:Hphone].
  - eexists _, _. split; [done|]. split; [|split]; [| |done];
      (split; [done|]); try done.
    intros (_ & _ & Hb & _). apply unusual_entropy_false in Hb. congruence.
  - eexists _, _. split; [done|]. split; [|split]; [| |done];
      (split; [done|]); try done.
    intros (_ & _ & _ & Hb). apply unusual_entropy_false in Hb. congruence.
  - apply unusual_entropy_false in Hic, Hphone.
    eexists _, _. split; [done|]. split; [done|]. split; [done|].
    intros _.
    repeat match goal with
           | H : ¬ (_ ≠ _) |- _ => apply dec_stable in H
           end.
    by rewrite validate_accepts by done.
Qed.


Lemma salted_inputs_differ (card_public_key phone_public_key : bytes) :
  ECCHardwareManager.ic_salt ++ card_public_key
  ≠ ECCHardwareManager.phone_salt ++ phone_public_key.
Proof.
  intros Heq%(f_equal (take 10)). vm_compute in Heq. discriminate Heq.
Qed.

Lemma derived_key_is_whole_digest (seed salt context : bytes) :
  derived_key_of_spec seed salt context
  = hashlib.sha256 (hashlib.sha256 (salt ++ seed) ++ context ++ [Byte.x01]).
Proof.
  unfold derived_key_of_spec. apply take_ge. by rewrite length_sha256.
Qed.

(** X12. [derive_keys_from_public] returns the two untruncated SHA-256
    digests (the slice to 32 bytes removes nothing).  The salted inputs of
    the two extractions differ whatever the public keys are, so the IC key
    and the phone key coincide only through a SHA-256 collision, in the
    extraction or in the expansion. *)
Theorem the_two_derivations_are_separated
    (card_public_key phone_public_key : bytes) (did : string) (w : world) :
  let ic_input := ECCHardwareManager.ic_salt ++ card_public_key in
  let phone_input := ECCHardwareManager.phone_salt ++ phone_public_key in
  let expand prk := prk ++ encode_utf8 did ++ [Byte.x01] in
  ∃ ic_key phone_key : bytes,
    result_of (ECCHardwareManager.derive_keys_from_public card_public_key
                 phone_public_key did) w
    = Returned (ic_key, phone_key)
    ∧ ic_key = hashlib.sha256 (expand (hashlib.sha256 ic_input))
    ∧ phone_key = hashlib.sha256 (expand (hashlib.sha256 phone_input))
    ∧ ic_input ≠ phone_input
    ∧ (ic_key = phone_key →
       sha256_collision ic_input phone_input
       ∨ sha256_collision (expand (hashlib.sha256 ic_input))
                          (expand (hashlib.sha256 phone_input))).
Proof.
  intros ic_input phone_input expand.
  unfold result_of. rewrite derive_keys_from_public_runs. simpl.
  rewrite !derived_key_is_whole_digest. fold ic_input phone_input.
  eexists _, _. split; [done|]. split; [done|]. split; [done|].
  split; [apply salted_inputs_differ|].
  intros Heq. unfold sha256_collision.
  destruct (decide (expand (hashlib.sha256 ic_input)
                    = expand (hashlib.sha256 phone_input))) as [Hsame|Hdiff];
    [left|by right].
  split; [apply salted_inputs_differ|].
  subst expand. simpl in Hsame.
  by apply app_inj_1 in Hsame as [? _]; [|by rewrite !length_sha256].
Qed.

(** ** [SecurityCore]: the gate between the two operations *)

(** X13. When a key has the wrong length or is all zeros, [protect_data]
    and [unprotect_data] raise having entered only themselves and
    [_validate_hardware_keys], whatever the imported pipeline is.  The fault
    reported is the first of: IC key length, phone key length, IC key all
    zeros, phone key all zeros. *)
Theorem invalid_keys_raise_before_any_work {record : Type}
    (imports : data_fragmentation_advanced record) (data : record)
    (fragment_a fragment_b ic_key phone_key : bytes)
    (metadata : gmap string value)
    (enable_anti_tampering enable_time_lock skip_time_lock : bool)
    (time_lock_duration : Z) (w : world) :
  ¬ passes_validation ic_key phone_key →
  let why :=
    if bool_decide (len ic_key ≠ 32%Z) then IcKeyLength (len ic_key)
    else if bool_decide (len phone_key ≠ 32%Z) then
      PhoneKeyLength (len phone_key)
    else if bool_decide (ic_key = repeat Byte.x00 32) then IcKeyAllZeros
    else PhoneKeyAllZeros in
  SecurityCore.protect_data imports data ic_key phone_key
    enable_anti_tampering enable_time_lock time_lock_duration w
  = (entering [protect_data_entered; validate_hardware_keys_entered] w,
     Raised (InvalidKeyMaterial why))
  ∧ SecurityCore.unprotect_data imports fragment_a fragment_b ic_key
      phone_key metadata skip_time_lock w
    = (entering [unprotect_data_entered; validate_hardware_keys_entered] w,
       Raised (InvalidKeyMaterial why)).
Proof.
  intros Hbad why.
  assert (Hraise : ∀ w0,
    SecurityCore._validate_hardware_keys ic_key phone_key w0
    = (entering [validate_hardware_keys_entered] w0,
       Raised (InvalidKeyMaterial why))).
  { intros w0. subst why.
    unfold SecurityCore._validate_hardware_keys, bind, enter.
    repeat (case_bool_decide; [done|]).
    destruct Hbad. unfold passes_validation.
    repeat split; try done; by apply dec_stable. }
  unfold SecurityCore.protect_data, SecurityCore.unprotect_data.
  unfold bind at 1, enter at 1. unfold bind at 1. rewrite Hraise.
  unfold bind at 1, enter at 1. unfold bind at 1. rewrite Hraise.
  by rewrite !entering_entering.
Qed.

Lemma empty_key_raises_before_any_work :
  SecurityCore.protect_data SamplePipeline.imports Sample.ahmad []
    Sample.key_22 true false 0 Sample.world0
  = (entering [protect_data_entered; validate_hardware_keys_entered]
       Sample.world0,
     Raised (InvalidKeyMaterial (IcKeyLength 0))).
Proof.
  apply (invalid_keys_raise_before_any_work SamplePipeline.imports
           Sample.ahmad [] [] [] Sample.key_22 ∅ true false false 0
           Sample.world0).
  unfold passes_validation. intros [Hlen _]. discriminate Hlen.
Defined.

Lemma dict_update_fingerprint (metadata : gmap string value)
    (fingerprint timestamp : string) :
  dict_update metadata
    [("security_core_version", VStr SecurityCore.version);
     ("key_fingerprint", VStr fingerprint);
     ("protection_timestamp", VStr timestamp);
     ("compliance_standards", VStrList SecurityCore.compliance)]
  !! "key_fingerprint" = Some (VStr fingerprint).
Proof.
  unfold dict_update. cbn [fold_left fst snd].
  by rewrite !lookup_insert_ne, lookup_insert_eq by done.
Qed.

(** X14. Whatever the imported pipeline is: when [protect_data] returns,
    the keys had passed validation, the metadata returned holds the
    fingerprint of the keys under "key_fingerprint" (overwriting what the
    pipeline may have put there), and [unprotect_data] with the same keys
    and that metadata passes the fingerprint gate: it calls
    [reconstruct_data_advanced] and returns what that returns. *)
Theorem protect_metadata_passes_the_fingerprint_gate {record : Type}
    (imports : data_fragmentation_advanced record) (data : record)
    (ic_key phone_key fragment_a fragment_b : bytes) (merkle_root : string)
    (metadata : gmap string value)
    (enable_anti_tampering enable_time_lock : bool) (time_lock_duration : Z)
    (w w' : world) :
  SecurityCore.protect_data imports data ic_key phone_key
    enable_anti_tampering enable_time_lock time_lock_duration w
  = (w', Returned (fragment_a, fragment_b, merkle_root, metadata)) →
  passes_validation ic_key phone_key
  ∧ metadata !! "key_fingerprint"
    = Some (VStr (generate_key_fingerprint imports ic_key phone_key))
  ∧ ∀ (fragment_a' fragment_b' : bytes) (skip_time_lock : bool) (w2 : world),
      SecurityCore.unprotect_data imports fragment_a' fragment_b' ic_key
        phone_key metadata skip_time_lock w2
      = (do data <-
           reconstruct_data_advanced imports fragment_a' fragment_b' ic_key
             phone_key metadata skip_time_lock;
         ret data)
          (entering [unprotect_data_entered; validate_hardware_keys_entered;
                     generate_key_fingerprint_entered] w2).
Proof.
  intros Hprotect.
  assert (Decision (passes_validation ic_key phone_key)) as [Hvalid|Hbad]
    by (unfold passes_validation; apply _).
  - rewrite protect_data_runs in Hprotect by done.
    unfold bind at 1 in Hprotect.
    destruct (split_into_fragments_advanced imports data ic_key phone_key
                enable_anti_tampering enable_time_lock time_lock_duration _)
      as [w1 [[[[fa fb] root] md]|e|]]; try discriminate Hprotect.
    unfold bind, now_isoformat, ret in Hprotect.
    injection Hprotect as _ _ _ _ <-.
    assert (Hstored : ∀ md0 ts, dict_update md0
              [("security_core_version", VStr SecurityCore.version);
               ("key_fingerprint",
                VStr (generate_key_fingerprint imports ic_key phone_key));
               ("protection_timestamp", VStr ts);
               ("compliance_standards", VStrList SecurityCore.compliance)]
            !! "key_fingerprint"
            = Some (VStr (generate_key_fingerprint imports ic_key phone_key)))
      by (intros; apply dict_update_fingerprint).
    split; [done|]. split; [apply Hstored|].
    intros fragment_a' fragment_b' skip_time_lock w2.
    rewrite unprotect_data_runs by done. cbn zeta.
    by rewrite bool_decide_eq_true_2 by apply Hstored.
  - destruct (invalid_keys_stop_both_operations imports data fragment_a
                fragment_b ic_key phone_key metadata enable_anti_tampering
                enable_time_lock false time_lock_duration w Hbad)
      as (why & Hraise & _).
    rewrite Hraise in Hprotect. discriminate Hprotect.
Qed.


(** ** Fragment B and its inputs *)

Lemma app3_inj_64 (a b c a' b' c' : bytes) :
  length a = 64 → length a' = 64 → length b = 64 → length b' = 64 →
  a ++ b ++ c = a' ++ b' ++ c' → a = a' ∧ b = b' ∧ c = c'.
Proof.
  intros La La' Lb Lb' Heq.
  apply app_inj_1 in Heq as [-> Heq]; [|congruence].
  apply app_inj_1 in Heq as [-> ->]; [done|congruence].
Qed.

(** X15. Fragment B binds all three inputs: if [create_fragment_b] returns
    the same 32 bytes for two triples (fragment A, IC key, phone key), then
    the triples are equal, or two of the inputs collide under SHA-512, or
    the two concatenations of digests collide on the first 32 bytes of
    their SHA-512. *)
Theorem equal_fragment_b_needs_equal_inputs_or_a_collision
    (fragment_a ic_key phone_key fragment_a' ic_key' phone_key' : bytes)
    (w w' : world) :
  result_of (DataFragmenter.create_fragment_b fragment_a ic_key phone_key) w
  = result_of (DataFragmenter.create_fragment_b fragment_a' ic_key'
                 phone_key') w' →
  (fragment_a = fragment_a' ∧ ic_key = ic_key' ∧ phone_key = phone_key')
  ∨ sha512_collision fragment_a fragment_a'
  ∨ sha512_collision ic_key ic_key'
  ∨ sha512_collision phone_key phone_key'
  ∨ sha512_truncated_collision
      (hashlib.sha512 fragment_a ++ hashlib.sha512 ic_key
         ++ hashlib.sha512 phone_key)
      (hashlib.sha512 fragment_a' ++ hashlib.sha512 ic_key'
         ++ hashlib.sha512 phone_key').
Proof.
  unfold result_of. rewrite !create_fragment_b_runs. simpl.
  unfold binding_of_spec, sha512_collision, sha512_truncated_collision.
  intros Heq. injection Heq as Heq.
  destruct (decide (hashlib.sha512 fragment_a ++ hashlib.sha512 ic_key
                      ++ hashlib.sha512 phone_key
                    = hashlib.sha512 fragment_a' ++ hashlib.sha512 ic_key'
                        ++ hashlib.sha512 phone_key')) as [Hin|Hin];
    [|by right; right; right; right].
  apply app3_inj_64 in Hin as (Ha & Hi & Hp); try apply length_sha512.
  destruct (decide (fragment_a = fragment_a')) as [->|];
    [|by right; left].
  destruct (decide (ic_key = ic_key')) as [->|]; [|by right; right; left].
  destruct (decide (phone_key = phone_key')) as [->|];
    [by left|by right; right; right; left].
Qed.

Lemma equal_inputs_give_equal_fragment_b :
  (Sample.ahmad = Sample.ahmad ∧ Sample.key_11 = Sample.key_11
   ∧ Sample.key_22 = Sample.key_22)
  ∨ sha512_collision Sample.ahmad Sample.ahmad
  ∨ sha512_collision Sample.key_11 Sample.key_11
  ∨ sha512_collision Sample.key_22 Sample.key_22
  ∨ sha512_truncated_collision
      (hashlib.sha512 Sample.ahmad ++ hashlib.sha512 Sample.key_11
         ++ hashlib.sha512 Sample.key_22)
      (hashlib.sha512 Sample.ahmad ++ hashlib.sha512 Sample.key_11
         ++ hashlib.sha512 Sample.key_22).
Proof.
  apply (equal_fragment_b_needs_equal_inputs_or_a_collision Sample.ahmad
           Sample.key_11 Sample.key_22 Sample.ahmad Sample.key_11
           Sample.key_22 Sample.world0 Sample.world0).
  reflexivity.
Defined.


(** ** The modelled pipeline goes through [protect_data] *)

Lemma model_protect_returns {record : Type}
    (format : AdvancedFragmentation.codec record)
    (keys : AdvancedFragmentation.key_convention) (data : record)
    (ic_key phone_key : bytes)
    (enable_anti_tampering enable_time_lock : bool) (time_lock_duration : Z)
    (w : world) :
  passes_validation ic_key phone_key →
  ∃ (w' : world) (fragment_a fragment_b : bytes) (merkle_root : string)
    (metadata : gmap string value),
    SecurityCore.protect_data (AdvancedFragmentation.imports format keys) data
      ic_key phone_key enable_anti_tampering enable_time_lock
      time_lock_duration w
    = (w', Returned (fragment_a, fragment_b, merkle_root, metadata)).
Proof.
  intros Hvalid. rewrite protect_data_runs by done.
  cbn [split_into_fragments_advanced AdvancedFragmentation.imports].
  destruct (split_runs format keys ic_key phone_key data enable_anti_tampering
              enable_time_lock time_lock_duration
              (entering [protect_data_entered; validate_hardware_keys_entered;
                         generate_key_fingerprint_entered] w))
    as (w' & marked & verification & nonce & metadata & Hsplit & _).
  unfold bind at 1. rewrite Hsplit.
  unfold bind, now_isoformat, ret. by eexists _, _, _, _, _.
Qed.

Lemma sample_metadata_passes_the_gate :
  ∃ metadata : gmap string value,
    passes_validation Sample.key_11 Sample.key_22
    ∧ metadata !! "key_fingerprint"
      = Some (VStr (generate_key_fingerprint SamplePipeline.imports
                      Sample.key_11 Sample.key_22)).
Proof.
  destruct (model_protect_returns SamplePipeline.format
              SamplePipeline.convention Sample.ahmad Sample.key_11
              Sample.key_22 true false 0 Sample.world0)
    as (w' & fragment_a & fragment_b & merkle_root & metadata & Hprotect).
  { unfold passes_validation. repeat split; discriminate. }
  exists metadata.
  pose proof (protect_metadata_passes_the_fingerprint_gate
                SamplePipeline.imports Sample.ahmad Sample.key_11
                Sample.key_22 fragment_a fragment_b merkle_root metadata true
                false 0 Sample.world0 w' Hprotect) as (Hvalid & Hstored & _).
  by split.
Defined.

(** ** What the key fingerprint carries *)

Lemma ecc_fingerprint_runs (ic_key phone_key : bytes) (w : world) :
  ECCHardwareManager.generate_key_fingerprint ic_key phone_key w
  = (entering [generate_key_fingerprint_entered] w,
     Returned (hashlib.hex (take 8 (hashlib.sha256 (ic_key ++ phone_key))))).
Proof.
  unfold ECCHardwareManager.generate_key_fingerprint, bind, enter, ret.
  by rewrite <- fingerprint_is_hex_of_8_bytes.
Qed.

(** X16. The fingerprint carries the first 8 bytes of
    SHA-256(ic_key ‖ phone_key) and nothing else: two key pairs have the
    same fingerprint exactly when these 8 bytes agree.  In particular it
    does not record where the IC key ends and the phone key begins. *)
Theorem fingerprint_carries_8_bytes_of_the_digest
    (ic_key phone_key ic_key' phone_key' moved : bytes) (w w' : world) :
  (result_of (ECCHardwareManager.generate_key_fingerprint ic_key phone_key) w
   = result_of (ECCHardwareManager.generate_key_fingerprint ic_key'
                  phone_key') w'
   ↔ take 8 (hashlib.sha256 (ic_key ++ phone_key))
     = take 8 (hashlib.sha256 (ic_key' ++ phone_key')))
  ∧ result_of (ECCHardwareManager.generate_key_fingerprint (ic_key ++ moved)
                 phone_key) w
    = result_of (ECCHardwareManager.generate_key_fingerprint ic_key
                   (moved ++ phone_key)) w'.
Proof.
  unfold result_of. rewrite !ecc_fingerprint_runs. simpl. split.
  - split.
    + intros Heq. injection Heq as Heq. by apply hex_inj.
    + by intros ->.
  - by rewrite <- app_assoc.
Qed.
